(** * calculator-python-example: the arithmetic functions and the stateful
      Calculator

    A shallow embedding of [src/calculator/calculator.py] (the four pure
    functions) and [src/calculator/calculator_class.py] (the [Calculator]
    class with its history, its last result and operation chaining).

    The Python values that reach the calculator are ints and floats.  An int
    is a [Z]; a float is an IEEE-754 binary64 value, taken from the
    specification of floating-point arithmetic of the standard library
    ([SpecFloat], precision 53, [emax] 1024), which is executable and rounds
    to nearest, ties to even.  The builtins the source calls ([+], [*], [/],
    [==], [round], [sum], [len], [str], [float], [str.split], [str.strip])
    are written out below with the behaviour CPython gives them on these two
    types, exceptions included. *)

From Stdlib Require Import ZArith List String Ascii Bool Lia Decimal DecimalPos.
From Stdlib Require Import Floats.SpecFloat.
Import ListNotations.

Local Open Scope list_scope.
Local Open Scope string_scope.
Local Open Scope Z_scope.

(** ** Exceptions and results *)

Inductive exn : Type :=
| ValueError (msg : string)
| OverflowError (msg : string)
| ZeroDivisionError (msg : string).

Inductive result (A : Type) : Type :=
| Ok (a : A)
| Err (e : exn).

Arguments Ok {A} a.
Arguments Err {A} e.

Definition rbind {A B : Type} (r : result A) (k : A -> result B) : result B :=
  match r with
  | Ok a => k a
  | Err e => Err e
  end.

(** The spec's error taxonomy; in the source all four are [ValueError]s that
    differ by their message. *)
Definition DivisionByZero : exn := ValueError "Cannot divide by zero".
Definition EmptyInput : exn := ValueError "Cannot calculate average of empty list".
Definition NoPreviousResult : exn := ValueError "No previous result to chain".
Definition UnknownOperation (op : string) : exn :=
  ValueError ("Unknown operation: " ++ op).

(** ** Binary64 floats *)

Module Float64.

Definition prec : Z := 53.
Definition emax : Z := 1024.

Definition fadd : spec_float -> spec_float -> spec_float := SFadd prec emax.
Definition fmul : spec_float -> spec_float -> spec_float := SFmul prec emax.
Definition fdiv : spec_float -> spec_float -> spec_float := SFdiv prec emax.

Definition is_infinite (f : spec_float) : bool :=
  match f with
  | S754_infinity _ => true
  | _ => false
  end.

(** The integer [z] as an exact (unrounded) operand of a float operation. *)
Definition exact_Z (z : Z) : spec_float :=
  match z with
  | Z0 => S754_zero false
  | Zpos m => S754_finite false m 0
  | Zneg m => S754_finite true m 0
  end.

(** The float nearest to the integer [z] (infinite when out of range). *)
Definition of_Z (z : Z) : spec_float := binary_normalize prec emax z 0 false.

(** The float nearest to [(-1)^neg * m * 10^e10], [0 <= m]: what C's
    [strtod] returns for a decimal numeral.  A non-negative exponent gives
    an integer, rounded once; a negative one gives a quotient of two
    integers, rounded once by the division. *)
Definition of_decimal (neg : bool) (m : Z) (e10 : Z) : spec_float :=
  match m with
  | Zpos p =>
      if 0 <=? e10
      then binary_normalize prec emax
             (if neg then - (m * 10 ^ e10) else m * 10 ^ e10) 0 false
      else fdiv (S754_finite neg p 0) (exact_Z (10 ^ (- e10)))
  | _ => S754_zero neg
  end.

(** Python's [==] between an int and a float compares the exact values. *)
Definition eqb_Z (f : spec_float) (z : Z) : bool :=
  match f with
  | S754_zero _ => z =? 0
  | S754_finite s m e =>
      let sm := if s then Zneg m else Zpos m in
      if 0 <=? e then z =? sm * 2 ^ e else z * 2 ^ (- e) =? sm
  | _ => false
  end.

End Float64.

(** ** Python numbers *)

Inductive num : Type :=
| PInt (z : Z)
| PFloat (f : spec_float).

Module PyNum.
Import Float64.

(** [float(z)] for an int, as the mixed-type operators apply it. *)
Definition int_to_float (z : Z) : result spec_float :=
  let f := of_Z z in
  if is_infinite f
  then Err (OverflowError "int too large to convert to float")
  else Ok f.

Definition to_float (a : num) : result spec_float :=
  match a with
  | PInt z => int_to_float z
  | PFloat f => Ok f
  end.

(** [a + b] *)
Definition py_add (a b : num) : result num :=
  match a, b with
  | PInt x, PInt y => Ok (PInt (x + y))
  | _, _ =>
      rbind (to_float a) (fun x =>
      rbind (to_float b) (fun y =>
      Ok (PFloat (fadd x y))))
  end.

(** [a * b] *)
Definition py_mul (a b : num) : result num :=
  match a, b with
  | PInt x, PInt y => Ok (PInt (x * y))
  | _, _ =>
      rbind (to_float a) (fun x =>
      rbind (to_float b) (fun y =>
      Ok (PFloat (fmul x y))))
  end.

(** [b == 0] *)
Definition is_zero (b : num) : bool :=
  match b with
  | PInt z => z =? 0
  | PFloat f => eqb_Z f 0
  end.

(** [a / b], true division.  Two ints give the correctly rounded quotient
    of the exact integers. *)
Definition py_truediv (a b : num) : result num :=
  match a, b with
  | PInt x, PInt y =>
      if y =? 0 then Err (ZeroDivisionError "division by zero")
      else
        let q := fdiv (exact_Z x) (exact_Z y) in
        if is_infinite q
        then Err (OverflowError "integer division result too large for a float")
        else Ok (PFloat q)
  | _, _ =>
      rbind (to_float a) (fun x =>
      rbind (to_float b) (fun y =>
      if eqb_Z y 0 then Err (ZeroDivisionError "float division by zero")
      else Ok (PFloat (fdiv x y))))
  end.

(** [a == b] *)
Definition py_eq (a b : num) : bool :=
  match a, b with
  | PInt x, PInt y => x =? y
  | PFloat x, PFloat y => SFeqb x y
  | PInt x, PFloat y => eqb_Z y x
  | PFloat x, PInt y => eqb_Z x y
  end.

(** [n / d] rounded to the nearest integer, ties to even ([0 < d]). *)
Definition div_half_even (n d : Z) : Z :=
  let q := n / d in
  let r := n mod d in
  match 2 * r ?= d with
  | Lt => q
  | Gt => q + 1
  | Eq => if Z.even q then q else q + 1
  end.

(** [round(z, ndigits)] for an int: the int itself for [0 <= ndigits], else
    the nearest multiple of [10^(-ndigits)], ties to the even multiple. *)
Definition round_int (z ndigits : Z) : Z :=
  if 0 <=? ndigits then z
  else let p := 10 ^ (- ndigits) in div_half_even z p * p.

(** [round(x, ndigits)] for a float, as CPython's [float.__round__] and
    [double_round]: NaNs and infinities round to themselves; beyond 323
    digits the float is returned, below -308 a signed zero is; otherwise
    the exact binary value is rounded to [ndigits] decimals, ties to even,
    and that decimal is converted to the nearest float.  A result that
    overflows raises OverflowError. *)
Definition NDIGITS_MAX : Z := 323.
Definition NDIGITS_MIN : Z := -308.

Definition double_round (s : bool) (m : positive) (e ndigits : Z) : result spec_float :=
  let n := Zpos m * 2 ^ (Z.max e 0) * 10 ^ (Z.max ndigits 0) in
  let d := 2 ^ (Z.max (- e) 0) * 10 ^ (Z.max (- ndigits) 0) in
  let rounded := of_decimal s (div_half_even n d) (- ndigits) in
  if is_infinite rounded
  then Err (OverflowError "rounded value too large to represent")
  else Ok rounded.

Definition round_float (x : spec_float) (ndigits : Z) : result spec_float :=
  match x with
  | S754_finite s m e =>
      if NDIGITS_MAX <? ndigits then Ok x
      else if ndigits <? NDIGITS_MIN then Ok (S754_zero s)
      else double_round s m e ndigits
  | _ => Ok x
  end.

(** [round(x, ndigits)] *)
Definition py_round (x : num) (ndigits : Z) : result num :=
  match x with
  | PInt z => Ok (PInt (round_int z ndigits))
  | PFloat f => rbind (round_float f ndigits) (fun r => Ok (PFloat r))
  end.

(** [sum(numbers)]: the items added left to right, from the int 0.
    (CPython 3.12 and later add floats with a compensated sum, which can
    differ from this loop in the last bit.) *)
Fixpoint sum_from (acc : num) (numbers : list num) : result num :=
  match numbers with
  | [] => Ok acc
  | x :: rest => rbind (py_add acc x) (fun acc' => sum_from acc' rest)
  end.

Definition py_sum (numbers : list num) : result num := sum_from (PInt 0) numbers.

(** [len(numbers)] *)
Definition py_len (numbers : list num) : num := PInt (Z.of_nat (List.length numbers)).

End PyNum.

(** ** Python strings: the [str] methods the source calls, number
       formatting and [float(...)] *)

Module PyStr.
Import Float64.

Definition is_digit (c : ascii) : bool :=
  let n := N_of_ascii c in ((48 <=? n) && (n <=? 57))%N.

(** The ASCII characters [str.strip()] removes. *)
Definition is_space (c : ascii) : bool :=
  let n := N_of_ascii c in
  (((9 <=? n) && (n <=? 13)) || ((28 <=? n) && (n <=? 32)))%N.

Fixpoint all_chars (P : ascii -> bool) (s : string) : bool :=
  match s with
  | EmptyString => true
  | String c r => P c && all_chars P r
  end.

(** [s.split(sep)] for a one-character separator. *)
Fixpoint split (sep : ascii) (s : string) : list string :=
  match s with
  | EmptyString => [""]
  | String c r =>
      if Ascii.eqb c sep then "" :: split sep r
      else match split sep r with
           | h :: t => String c h :: t
           | [] => [String c ""]
           end
  end.

(** [l[-1]] on a list of strings that [split] returned. *)
Definition last_item (l : list string) : string := List.last l "".

Fixpoint lstrip (s : string) : string :=
  match s with
  | EmptyString => ""
  | String c r => if is_space c then lstrip r else s
  end.

Fixpoint rstrip (s : string) : string :=
  match s with
  | EmptyString => ""
  | String c r =>
      match rstrip r with
      | EmptyString => if is_space c then "" else String c ""
      | r' => String c r'
      end
  end.

(** [s.strip()] *)
Definition strip (s : string) : string := rstrip (lstrip s).

(** *** Integers in decimal *)

Fixpoint string_of_uint (d : uint) : string :=
  match d with
  | Nil => ""
  | D0 d => String "0" (string_of_uint d)
  | D1 d => String "1" (string_of_uint d)
  | D2 d => String "2" (string_of_uint d)
  | D3 d => String "3" (string_of_uint d)
  | D4 d => String "4" (string_of_uint d)
  | D5 d => String "5" (string_of_uint d)
  | D6 d => String "6" (string_of_uint d)
  | D7 d => String "7" (string_of_uint d)
  | D8 d => String "8" (string_of_uint d)
  | D9 d => String "9" (string_of_uint d)
  end.

Definition str_pos (p : positive) : string := string_of_uint (Pos.to_uint p).

(** [str(z)] for an int. *)
Definition str_int (z : Z) : string :=
  match z with
  | Z0 => "0"
  | Zpos p => str_pos p
  | Zneg p => "-" ++ str_pos p
  end.

Definition zlen (s : string) : Z := Z.of_nat (String.length s).

Fixpoint zeros (n : nat) : string :=
  match n with
  | O => ""
  | S n' => String "0" (zeros n')
  end.

(** *** Floats: the shortest decimal that reads back as the float *)

(** [x * 10^t] as a fraction, for [x = n / d]. *)
Definition scaled (n d t : Z) : Z * Z :=
  (n * 10 ^ (Z.max t 0), d * 10 ^ (Z.max (- t) 0)).

(** The decimal exponent of [x = n / d > 0]: the [E] with
    [10^(E-1) <= x < 10^E]. *)
Definition decimal_exponent (n d : Z) : Z :=
  if d <=? n then zlen (str_int (n / d))
  else
    let j := zlen (str_int (d / n)) in
    if n * 10 ^ (j - 1) =? d then 2 - j else 1 - j.

(** Among the two [k]-digit decimals around [x], the nearest one that
    reads back as [x], if any; [(c, t)] stands for [c * 10^(-t)]. *)
Definition candidate (x : spec_float) (n d E k : Z) : option (Z * Z) :=
  let t := k - E in
  let '(n', d') := scaled n d t in
  let lo := n' / d' in
  let hi := lo + 1 in
  let r := n' mod d' in
  let ok c := SFeqb (of_decimal false c (- t)) x in
  match ok lo, ok hi with
  | true, true =>
      match 2 * r ?= d' with
      | Lt => Some (lo, t)
      | Gt => Some (hi, t)
      | Eq => Some (if Z.even lo then lo else hi, t)
      end
  | true, false => Some (lo, t)
  | false, true => Some (hi, t)
  | false, false => None
  end.

(** Digit counts [k], [k+1], ... are tried in turn; seventeen digits
    always identify a binary64 value, so the search stops there with the
    correctly rounded decimal. *)
Fixpoint shortest (fuel : nat) (x : spec_float) (n d E k : Z) : Z * Z :=
  match fuel with
  | O =>
      let t := k - E in
      let '(n', d') := scaled n d t in
      (PyNum.div_half_even n' d', t)
  | S fuel' =>
      match candidate x n d E k with
      | Some ct => ct
      | None => shortest fuel' x n d E (k + 1)
      end
  end.

Fixpoint rstrip_zeros (s : string) : string :=
  match s with
  | EmptyString => ""
  | String c r =>
      match rstrip_zeros r with
      | EmptyString => if Ascii.eqb c "0" then "" else String c ""
      | r' => String c r'
      end
  end.

Fixpoint take (n : nat) (s : string) : string :=
  match n, s with
  | S n', String c r => String c (take n' r)
  | _, _ => ""
  end.

Fixpoint drop (n : nat) (s : string) : string :=
  match n, s with
  | S n', String c r => drop n' r
  | _, _ => s
  end.

(** The digits and the position of the decimal point ([0.digits * 10^decpt])
    of a positive finite float [m * 2^e]. *)
Definition float_digits (m : positive) (e : Z) : string * Z :=
  let n := Zpos m * 2 ^ (Z.max e 0) in
  let d := 2 ^ (Z.max (- e) 0) in
  let E := decimal_exponent n d in
  let '(c, t) := shortest 16 (S754_finite false m e) n d E 1 in
  let ds := str_int c in
  (match rstrip_zeros ds with EmptyString => "0" | ds' => ds' end,
   zlen ds - t).

(** Exponents print with a sign and at least two digits. *)
Definition format_exponent (x : Z) : string :=
  let a := str_int (Z.abs x) in
  (if x <? 0 then "-" else "+") ++
  (if zlen a <? 2 then "0" ++ a else a).

(** [repr] lays the digits out in fixed notation for [-4 < decpt <= 16]
    (always with a decimal point) and in exponent notation otherwise. *)
Definition format_repr (ds : string) (decpt : Z) : string :=
  if (decpt <=? -4) || (16 <? decpt) then
    match ds with
    | String c EmptyString => String c "" ++ "e" ++ format_exponent (decpt - 1)
    | String c r => String c "" ++ "." ++ r ++ "e" ++ format_exponent (decpt - 1)
    | EmptyString => ""
    end
  else if decpt <=? 0 then
    "0." ++ zeros (Z.to_nat (- decpt)) ++ ds
  else if zlen ds <=? decpt then
    ds ++ zeros (Z.to_nat (decpt - zlen ds)) ++ ".0"
  else
    take (Z.to_nat decpt) ds ++ "." ++ drop (Z.to_nat decpt) ds.

(** [str(x)] (and [repr(x)]) for a float. *)
Definition str_float (x : spec_float) : string :=
  match x with
  | S754_nan => "nan"
  | S754_infinity s => if s then "-inf" else "inf"
  | S754_zero s => if s then "-0.0" else "0.0"
  | S754_finite s m e =>
      let '(ds, decpt) := float_digits m e in
      (if s then "-" else "") ++ format_repr ds decpt
  end.

(** *** [float(s)] *)

Fixpoint span_digits (s : string) : string * string :=
  match s with
  | EmptyString => ("", "")
  | String c r =>
      if is_digit c
      then let '(ds, rest) := span_digits r in (String c ds, rest)
      else ("", s)
  end.

Fixpoint digits_value (acc : Z) (s : string) : Z :=
  match s with
  | EmptyString => acc
  | String c r => digits_value (10 * acc + (Z.of_N (N_of_ascii c) - 48)) r
  end.

Definition lower (c : ascii) : ascii :=
  let n := N_of_ascii c in
  if ((65 <=? n) && (n <=? 90))%N then ascii_of_N (n + 32) else c.

Fixpoint lowercase (s : string) : string :=
  match s with
  | EmptyString => ""
  | String c r => String (lower c) (lowercase r)
  end.

Definition split_sign (s : string) : bool * string :=
  match s with
  | String "-" r => (true, r)
  | String "+" r => (false, r)
  | _ => (false, s)
  end.

(** What may follow the mantissa: nothing, or [e] and a signed integer. *)
Definition parse_exponent (s : string) : option Z :=
  match s with
  | EmptyString => Some 0
  | String c r =>
      if Ascii.eqb (lower c) "e" then
        let '(eneg, ds) := split_sign r in
        match span_digits ds with
        | (String c' ed, EmptyString) =>
            let x := digits_value 0 (String c' ed) in
            Some (if eneg then - x else x)
        | _ => None
        end
      else None
  end.

(** A decimal numeral: digits with an optional point and an optional
    exponent, at least one digit in the mantissa. *)
Definition parse_decimal (neg : bool) (s : string) : option spec_float :=
  let '(ip, r1) := span_digits s in
  let '(fp, r2) :=
    match r1 with
    | String "." r => span_digits r
    | _ => ("", r1)
    end in
  match ip ++ fp with
  | EmptyString => None
  | mant =>
      match parse_exponent r2 with
      | Some x => Some (of_decimal neg (digits_value 0 mant) (x - zlen fp))
      | None => None
      end
  end.

(** The text [float] accepts, surrounding whitespace removed: a signed
    decimal numeral, [inf], [infinity] or [nan] in any case.  (Digit-group
    underscores, which no formatted number contains, are not read.) *)
Definition parse_float (s : string) : option spec_float :=
  let '(neg, body) := split_sign (strip s) in
  let l := lowercase body in
  if String.eqb l "inf" || String.eqb l "infinity" then Some (S754_infinity neg)
  else if String.eqb l "nan" then Some S754_nan
  else parse_decimal neg body.

(** [float(s)] *)
Definition py_float (s : string) : result spec_float :=
  match parse_float s with
  | Some f => Ok f
  | None => Err (ValueError ("could not convert string to float: '" ++ s ++ "'"))
  end.

(** [str(x)] *)
Definition py_str (x : num) : string :=
  match x with
  | PInt z => str_int z
  | PFloat f => str_float f
  end.

(** [str(numbers)] for a list: the items' [repr]s between brackets. *)
Fixpoint join_items (numbers : list num) : string :=
  match numbers with
  | [] => ""
  | [x] => py_str x
  | x :: rest => py_str x ++ ", " ++ join_items rest
  end.

Definition str_list (numbers : list num) : string :=
  "[" ++ join_items numbers ++ "]".

(** The float a Python literal denotes. *)
Definition float_lit (s : string) : spec_float :=
  match parse_float s with
  | Some f => f
  | None => S754_nan
  end.

End PyStr.

Import Float64 PyNum PyStr.

(** ** [calculator.py]: the four functions *)

Module calculator.

Definition add (a b : num) : result num := py_add a b.

Definition divide (a b : num) : result num :=
  if is_zero b then Err (ValueError "Cannot divide by zero")
  else py_truediv a b.

Definition multiply (a b : num) : result num := py_mul a b.

Definition calculate_average (numbers : list num) : result num :=
  match numbers with
  | [] => Err (ValueError "Cannot calculate average of empty list")
  | _ => rbind (py_sum numbers) (fun s => py_truediv s (py_len numbers))
  end.

End calculator.

(** ** [calculator_class.py]: the [Calculator] class *)

Module calculator_class.

Record Calculator : Type := mkCalculator {
  precision : Z;
  history : list string;
  last_result : option spec_float
}.

(** A method body is a computation on the instance: it returns a value or
    raises, and leaves the instance as it was at that point. *)
Definition M (A : Type) : Type := Calculator -> result A * Calculator.

Definition ret {A : Type} (a : A) : M A := fun self => (Ok a, self).

Definition raise {A : Type} (e : exn) : M A := fun self => (Err e, self).

Definition bind {A B : Type} (c : M A) (k : A -> M B) : M B :=
  fun self =>
    match c self with
    | (Ok a, self') => k a self'
    | (Err e, self') => (Err e, self')
    end.

(** A builtin that may raise, called from a method. *)
Definition lift {A : Type} (r : result A) : M A := fun self => (r, self).

Notation "x <- c ;; k" := (bind c (fun x => k))
  (at level 61, c at next level, right associativity).
Notation "c ;; k" := (bind c (fun _ => k))
  (at level 61, right associativity).

Definition get_precision : M Z := fun self => (Ok (precision self), self).

Definition get_last_result : M (option spec_float) :=
  fun self => (Ok (last_result self), self).

Definition history_append (operation : string) : M unit :=
  fun self =>
    (Ok tt, mkCalculator (precision self) (history self ++ [operation])%list
                         (last_result self)).

Definition set_last_result (r : option spec_float) : M unit :=
  fun self => (Ok tt, mkCalculator (precision self) (history self) r).

(** [Calculator(precision)] *)
Definition __init__ (precision : Z) : Calculator :=
  mkCalculator precision [] None.

(** [_log_operation]; the logger calls leave the instance alone. *)
Definition _log_operation (operation : string) (error : bool) : M unit :=
  history_append operation ;;
  if negb error then
    r <- lift (py_float (strip (last_item (split "=" operation)))) ;;
    set_last_result (Some r)
  else ret tt.

Definition add (a b : num) : M num :=
  p <- get_precision ;;
  result <- lift (rbind (py_add a b) (fun v => py_round v p)) ;;
  _log_operation (py_str a ++ " + " ++ py_str b ++ " = " ++ py_str result) false ;;
  ret result.

Definition divide (a b : num) : M num :=
  if is_zero b then
    _log_operation (py_str a ++ " / " ++ py_str b ++ " = ERROR") true ;;
    raise (ValueError "Cannot divide by zero")
  else
    p <- get_precision ;;
    result <- lift (rbind (py_truediv a b) (fun v => py_round v p)) ;;
    _log_operation (py_str a ++ " / " ++ py_str b ++ " = " ++ py_str result) false ;;
    ret result.

Definition multiply (a b : num) : M num :=
  p <- get_precision ;;
  result <- lift (rbind (py_mul a b) (fun v => py_round v p)) ;;
  _log_operation (py_str a ++ " * " ++ py_str b ++ " = " ++ py_str result) false ;;
  ret result.

Definition calculate_average (numbers : list num) : M num :=
  match numbers with
  | [] => raise (ValueError "Cannot calculate average of empty list")
  | _ =>
      p <- get_precision ;;
      result <- lift (rbind (rbind (py_sum numbers)
                               (fun s => py_truediv s (py_len numbers)))
                            (fun v => py_round v p)) ;;
      _log_operation ("avg(" ++ str_list numbers ++ ") = " ++ py_str result) false ;;
      ret result
  end.

Definition get_history : M (list string) :=
  fun self => (Ok (history self), self).

Definition clear_history : M unit :=
  fun self => (Ok tt, mkCalculator (precision self) [] None).

(** The dictionary [chain_operation] builds on each call. *)
Definition operations : list (string * (num -> num -> M num)) :=
  [("add", fun x y => add x y);
   ("mul", fun x y => multiply x y);
   ("div", fun x y => divide x y)].

Fixpoint lookup {V : Type} (d : list (string * V)) (k : string) : option V :=
  match d with
  | [] => None
  | (k', v) :: rest => if String.eqb k k' then Some v else lookup rest k
  end.

Definition chain_operation (op : string) (value : num) : M num :=
  lr <- get_last_result ;;
  match lr with
  | None => raise (ValueError "No previous result to chain")
  | Some x =>
      match lookup operations op with
      | None => raise (ValueError ("Unknown operation: " ++ op))
      | Some f => f (PFloat x) value
      end
  end.

(** A call to one of the five public operations, and a sequence of them
    on one instance, every outcome recorded. *)
Inductive call : Type :=
| Add (a b : num)
| Multiply (a b : num)
| Divide (a b : num)
| Average (numbers : list num)
| Chain (op : string) (value : num).

Definition run_call (c : call) : M num :=
  match c with
  | Add a b => add a b
  | Multiply a b => multiply a b
  | Divide a b => divide a b
  | Average numbers => calculate_average numbers
  | Chain op value => chain_operation op value
  end.

Fixpoint run_calls (cs : list call) (self : Calculator)
  : list (result num) * Calculator :=
  match cs with
  | [] => ([], self)
  | c :: rest =>
      let '(r, self') := run_call c self in
      let '(rs, self'') := run_calls rest self' in
      (r :: rs, self'')
  end.

End calculator_class.

Import calculator_class.

(** ** [main.py]: the two entry points that take an operation name *)

Module main.





(** [repr(s)] for a string of characters below 256: single quotes unless
    the string has a single quote and no double quote; the quote and the
    backslash escaped, tab, newline and return by letter, the other
    unprintable characters as [\xhh]. *)
Definition printable (n : N) : bool :=
  (((32 <=? n) && (n <? 127)) || ((161 <=? n) && negb (n =? 173)))%N.



(** The double quote character. *)
Definition dquote : ascii := ascii_of_N 34.






End main.

Import main.

(** ** [calculator_class.py] again, with the history as a shared list

    [self.history] is a reference to a list object: [append] changes that
    object in place, [get_history] returns the reference itself, and
    [clear_history] binds the attribute to a new list.  Here the list
    objects live in a store and the instance holds an address. *)

Module shared.

Definition address : Type := nat.

(** The list objects, by address. *)
Definition store : Type := list (list string).

Record Calculator : Type := mkCalculator {
  precision : Z;
  history : address;
  last_result : option spec_float
}.

(** The list at an address. *)
Definition deref (st : store) (a : address) : list string := nth a st [].

(** [l.append(entry)] on the list at address [a]. *)
Fixpoint list_append (st : store) (a : address) (entry : string) : store :=
  match st, a with
  | l :: rest, O => (l ++ [entry])%list :: rest
  | l :: rest, S a' => l :: list_append rest a' entry
  | [], _ => []
  end.

(** A new empty list [[]]. *)
Definition new_list (st : store) : store * address :=
  ((st ++ [[]])%list, List.length st).

Definition M (A : Type) : Type :=
  store * Calculator -> result A * (store * Calculator).

Definition ret {A : Type} (a : A) : M A := fun w => (Ok a, w).

Definition raise {A : Type} (e : exn) : M A := fun w => (Err e, w).

Definition bind {A B : Type} (c : M A) (k : A -> M B) : M B :=
  fun w =>
    match c w with
    | (Ok a, w') => k a w'
    | (Err e, w') => (Err e, w')
    end.

Definition lift {A : Type} (r : result A) : M A := fun w => (r, w).

#[local] Set Warnings "-notation-overridden".
Notation "x <- c ;; k" := (bind c (fun x => k))
  (at level 61, c at next level, right associativity).
Notation "c ;; k" := (bind c (fun _ => k))
  (at level 61, right associativity).

Definition get_precision : M Z := fun w => (Ok (precision (snd w)), w).

Definition get_last_result : M (option spec_float) :=
  fun w => (Ok (last_result (snd w)), w).

Definition history_append (operation : string) : M unit :=
  fun w => (Ok tt, (list_append (fst w) (history (snd w)) operation, snd w)).

Definition set_last_result (r : option spec_float) : M unit :=
  fun w => (Ok tt, (fst w, mkCalculator (precision (snd w)) (history (snd w)) r)).

(** [Calculator(precision)] *)
Definition __init__ (precision : Z) (st : store) : store * Calculator :=
  let '(st', a) := new_list st in (st', mkCalculator precision a None).

Definition _log_operation (operation : string) (error : bool) : M unit :=
  history_append operation ;;
  if negb error then
    r <- lift (py_float (strip (last_item (split "=" operation)))) ;;
    set_last_result (Some r)
  else ret tt.

Definition add (a b : num) : M num :=
  p <- get_precision ;;
  result <- lift (rbind (py_add a b) (fun v => py_round v p)) ;;
  _log_operation (py_str a ++ " + " ++ py_str b ++ " = " ++ py_str result) false ;;
  ret result.

Definition divide (a b : num) : M num :=
  if is_zero b then
    _log_operation (py_str a ++ " / " ++ py_str b ++ " = ERROR") true ;;
    raise (ValueError "Cannot divide by zero")
  else
    p <- get_precision ;;
    result <- lift (rbind (py_truediv a b) (fun v => py_round v p)) ;;
    _log_operation (py_str a ++ " / " ++ py_str b ++ " = " ++ py_str result) false ;;
    ret result.

Definition multiply (a b : num) : M num :=
  p <- get_precision ;;
  result <- lift (rbind (py_mul a b) (fun v => py_round v p)) ;;
  _log_operation (py_str a ++ " * " ++ py_str b ++ " = " ++ py_str result) false ;;
  ret result.

Definition calculate_average (numbers : list num) : M num :=
  match numbers with
  | [] => raise (ValueError "Cannot calculate average of empty list")
  | _ =>
      p <- get_precision ;;
      result <- lift (rbind (rbind (py_sum numbers)
                               (fun s => py_truediv s (py_len numbers)))
                            (fun v => py_round v p)) ;;
      _log_operation ("avg(" ++ str_list numbers ++ ") = " ++ py_str result) false ;;
      ret result
  end.

(** [get_history] returns the list object itself, not a copy. *)
Definition get_history : M address := fun w => (Ok (history (snd w)), w).

(** [clear_history] binds [self.history] to a new list; the old list object
    is left as it is. *)
Definition clear_history : M unit :=
  fun w =>
    let '(st', a) := new_list (fst w) in
    (Ok tt, (st', mkCalculator (precision (snd w)) a None)).

Definition operations : list (string * (num -> num -> M num)) :=
  [("add", fun x y => add x y);
   ("mul", fun x y => multiply x y);
   ("div", fun x y => divide x y)].

Definition chain_operation (op : string) (value : num) : M num :=
  lr <- get_last_result ;;
  match lr with
  | None => raise (ValueError "No previous result to chain")
  | Some x =>
      match calculator_class.lookup operations op with
      | None => raise (ValueError ("Unknown operation: " ++ op))
      | Some f => f (PFloat x) value
      end
  end.

Definition run_call (c : calculator_class.call) : M num :=
  match c with
  | calculator_class.Add a b => add a b
  | calculator_class.Multiply a b => multiply a b
  | calculator_class.Divide a b => divide a b
  | calculator_class.Average numbers => calculate_average numbers
  | calculator_class.Chain op value => chain_operation op value
  end.

(** The instance and the store after a sequence of calls. *)
Definition run_calls (cs : list calculator_class.call) (w : store * Calculator)
  : store * Calculator :=
  fold_left (fun w c => snd (run_call c w)) cs w.

End shared.

(** * Notions the properties are stated with *)

(** The characters a formatted number is made of. *)
Definition numchar (c : ascii) : bool :=
  is_digit c || Ascii.eqb c "." || Ascii.eqb c "e" || Ascii.eqb c "+"
  || Ascii.eqb c "-" || Ascii.eqb c "i" || Ascii.eqb c "n" || Ascii.eqb c "f"
  || Ascii.eqb c "a".

Ltac each_ascii c :=
  destruct c as [[|] [|] [|] [|] [|] [|] [|] [|]];
  try discriminate; try reflexivity.

(** An exponent as [repr] writes it. *)
Inductive exp_tail : string -> Prop :=
| exp_none : exp_tail ""
| exp_some (neg : bool) (ed : string) :
    all_chars is_digit ed = true -> ed <> "" ->
    exp_tail (String "e" ((if neg then "-" else "+") ++ ed)).

(** A digit-led numeral made of number characters that [parse_decimal]
    reads under either sign. *)
Definition numeral (s : string) : Prop :=
  (exists c r, s = String c r /\ is_digit c = true) /\
  all_chars numchar s = true /\
  forall neg, exists f, parse_decimal neg s = Some f.

(** The float [_log_operation] reads back from the text of [r]. *)
Definition reread (r : num) : spec_float := float_lit (py_str r).

(** The instance after a successful operation was logged. *)
Definition logged (self : Calculator) (entry : string) (r : num) : Calculator :=
  mkCalculator (precision self) (history self ++ [entry])%list (Some (reread r)).

(** The instance after a failed division was logged. *)
Definition logged_error (self : Calculator) (entry : string) : Calculator :=
  mkCalculator (precision self) (history self ++ [entry])%list (last_result self).

(** Round the raw result, log it under [text], return it. *)
Definition outcome (self : Calculator) (text : string) (raw : result num)
  : result num * Calculator :=
  match rbind raw (fun v => py_round v (precision self)) with
  | Ok r => (Ok r, logged self (text ++ " = " ++ py_str r) r)
  | Err e => (Err e, self)
  end.

(** The function of [calculator.py] a call computes with; a chained call
    takes the last result as its first operand. *)
Definition pure_operations : list (string * (num -> num -> result num)) :=
  [("add", calculator.add); ("mul", calculator.multiply); ("div", calculator.divide)].

Definition raw_result (c : call) (self : Calculator) : result num :=
  match c with
  | Add a b => calculator.add a b
  | Multiply a b => calculator.multiply a b
  | Divide a b => calculator.divide a b
  | Average numbers => calculator.calculate_average numbers
  | Chain op value =>
      match last_result self with
      | None => Err NoPreviousResult
      | Some x =>
          match lookup pure_operations op with
          | None => Err (UnknownOperation op)
          | Some f => f (PFloat x) value
          end
      end
  end.

(** The errors of the arithmetic builtins: never a [ValueError]. *)
Definition arith_error (e : exn) : Prop :=
  match e with
  | ValueError _ => False
  | _ => True
  end.

Definition arith {A : Type} (r : result A) : Prop :=
  forall e, r = Err e -> arith_error e.

(** What a call does to the instance: a result is logged and becomes the
    last result; a division by zero is logged and keeps the last result;
    any other error leaves the instance as it was. *)
Inductive effect (self : Calculator) : result num -> Calculator -> Prop :=
| effect_logged (r : num) (entry : string) :
    effect self (Ok r) (logged self entry r)
| effect_zero (entry : string) :
    effect self (Err DivisionByZero) (logged_error self entry)
| effect_none (e : exn) :
    e <> DivisionByZero -> effect self (Err e) self.

(** The outcomes that leave an entry in the history: a returned result and
    the division-by-zero error. *)
Definition logs (r : result num) : bool :=
  match r with
  | Ok _ => true
  | Err (ValueError msg) => String.eqb msg "Cannot divide by zero"
  | Err _ => false
  end.

(** The names the spec lists as chainable: [add], [multiply]/[mul],
    [divide]/[div]. *)
Definition claimed_chainable : list string :=
  ["add"; "multiply"; "mul"; "divide"; "div"].

(** The keys of the dictionary in the source. *)
Definition chainable : list string := ["add"; "mul"; "div"].

(** The operator a chainable name stands for in a history entry. *)
Definition operator_text (op : string) : string :=
  if String.eqb op "add" then " + "
  else if String.eqb op "mul" then " * "
  else " / ".

(** The history entry of a call that returned [r]. *)
Definition entry_text (c : call) (self : Calculator) (r : num) : string :=
  match c with
  | Add a b => py_str a ++ " + " ++ py_str b ++ " = " ++ py_str r
  | Multiply a b => py_str a ++ " * " ++ py_str b ++ " = " ++ py_str r
  | Divide a b => py_str a ++ " / " ++ py_str b ++ " = " ++ py_str r
  | Average numbers => "avg(" ++ str_list numbers ++ ") = " ++ py_str r
  | Chain op value =>
      match last_result self with
      | Some x =>
          str_float x ++ operator_text op ++ py_str value ++ " = " ++ py_str r
      | None => ""
      end
  end.

(** The last result after a run of calls with the outcomes [rs], from the
    last result [lr] before it. *)
Definition last_success (rs : list (result num)) (lr : option spec_float)
  : option spec_float :=
  fold_left (fun acc r => match r with
                          | Ok v => Some (reread v)
                          | Err _ => acc
                          end) rs lr.

(** The two shapes of a history entry. *)
Definition entry_shape (entry : string) : Prop :=
  (exists text, entry = text ++ " = ERROR") \/
  (exists text r, entry = text ++ " = " ++ py_str r).

(** A use of the public interface: one of the five operations,
    [get_history] or [clear_history]. *)
Inductive action : Type :=
| Operation (c : call)
| GetHistory
| ClearHistory.

Definition run_action (self : Calculator) (a : action) : Calculator :=
  match a with
  | Operation c => snd (run_call c self)
  | GetHistory => snd (get_history self)
  | ClearHistory => snd (clear_history self)
  end.

Definition run_actions (acts : list action) (self : Calculator) : Calculator :=
  fold_left run_action acts self.

(** The characters of a history entry that [repr] leaves as they are. *)
Definition plain_char (c : ascii) : bool :=
  let n := N_of_ascii c in
  printable n && negb (Ascii.eqb c "'") && negb (Ascii.eqb c "\")
  && negb (Ascii.eqb c dquote).


(** The instance of [calculator_class] a shared-store instance stands
    for: its history is the list at its address. *)
Definition view (w : shared.store * shared.Calculator) : calculator_class.Calculator :=
  calculator_class.mkCalculator (shared.precision (snd w))
    (shared.deref (fst w) (shared.history (snd w))) (shared.last_result (snd w)).

(** The address of the instance's history is allocated. *)
Definition allocated (w : shared.store * shared.Calculator) : Prop :=
  (shared.history (snd w) < List.length (fst w))%nat.

(** A computation on the shared store does what the one on the value does,
    keeps the instance's list where it is and touches no other list. *)
Definition simulates {A : Type} (m' : shared.M A) (m : calculator_class.M A) : Prop :=
  forall w, allocated w ->
    fst (m' w) = fst (m (view w)) /\
    view (snd (m' w)) = snd (m (view w)) /\
    shared.history (snd (snd (m' w))) = shared.history (snd w) /\
    List.length (fst (snd (m' w))) = List.length (fst w) /\
    forall a, a <> shared.history (snd w) ->
              shared.deref (fst (snd (m' w))) a = shared.deref (fst w) a.

Ltac hide_pow :=
  repeat match goal with
         | |- context [2 ^ ?b] =>
             let x := fresh "pw" in set (x := 2 ^ b) in *; clearbody x
         end.

(** * Properties *)

(** ** Strings *)

Section StringFacts.

Lemma append_nil_r (s : string) : s ++ "" = s.
Proof. induction s as [|c s IH]; simpl; [reflexivity | now rewrite IH]. Qed.

Lemma append_assoc (a b c : string) : (a ++ b) ++ c = a ++ b ++ c.
Proof. induction a as [|x a IH]; simpl; [reflexivity | now rewrite IH]. Qed.

Lemma all_chars_app (P : ascii -> bool) (a b : string) :
  all_chars P (a ++ b) = all_chars P a && all_chars P b.
Proof.
  induction a as [|c a IH]; simpl; [reflexivity|].
  now rewrite IH, andb_assoc.
Qed.

Lemma all_chars_weaken (P Q : ascii -> bool) (s : string) :
  (forall c, P c = true -> Q c = true) ->
  all_chars P s = true -> all_chars Q s = true.
Proof.
  intros HPQ. induction s as [|c s IH]; simpl; [reflexivity|].
  intros H. apply andb_true_iff in H as [Hc Hs].
  now rewrite (HPQ c Hc), (IH Hs).
Qed.

(** *** [split] and [[-1]] *)

Lemma split_nonempty (sep : ascii) (s : string) : split sep s <> [].
Proof.
  destruct s as [|c s]; simpl; [discriminate|].
  destruct (Ascii.eqb c sep); [discriminate|].
  destruct (split sep s); discriminate.
Qed.

Lemma split_app (sep : ascii) (p t : string) :
  split sep (p ++ String sep t) = (split sep p ++ split sep t)%list.
Proof.
  induction p as [|c p IH]; simpl.
  - now rewrite Ascii.eqb_refl.
  - destruct (Ascii.eqb c sep); [now rewrite IH|].
    rewrite IH. pose proof (split_nonempty sep p) as Hne.
    destruct (split sep p) as [|h tl]; [contradiction|reflexivity].
Qed.

Lemma split_without_sep (sep : ascii) (t : string) :
  all_chars (fun c => negb (Ascii.eqb c sep)) t = true -> split sep t = [t].
Proof.
  induction t as [|c t IH]; simpl; [reflexivity|].
  intros H. apply andb_true_iff in H as [Hc Ht].
  apply negb_true_iff in Hc. rewrite Hc, (IH Ht). reflexivity.
Qed.

Lemma last_item_split (sep : ascii) (p t : string) :
  all_chars (fun c => negb (Ascii.eqb c sep)) t = true ->
  last_item (split sep (p ++ String sep t)) = t.
Proof.
  intros H. unfold last_item.
  rewrite split_app, (split_without_sep sep t H).
  apply last_last.
Qed.

(** *** [strip] *)

Lemma lstrip_id (s : string) :
  all_chars (fun c => negb (is_space c)) s = true -> lstrip s = s.
Proof.
  destruct s as [|c s]; simpl; [reflexivity|].
  intros H. apply andb_true_iff in H as [Hc _].
  apply negb_true_iff in Hc. now rewrite Hc.
Qed.

Lemma rstrip_id (s : string) :
  all_chars (fun c => negb (is_space c)) s = true -> rstrip s = s.
Proof.
  induction s as [|c s IH]; simpl; [reflexivity|].
  intros H. apply andb_true_iff in H as [Hc Hs].
  apply negb_true_iff in Hc. rewrite (IH Hs), Hc.
  destruct s; reflexivity.
Qed.

Lemma strip_id (s : string) :
  all_chars (fun c => negb (is_space c)) s = true -> strip s = s.
Proof.
  intros H. unfold strip. rewrite (lstrip_id s H). now apply rstrip_id.
Qed.

Lemma strip_space_id (s : string) :
  all_chars (fun c => negb (is_space c)) s = true -> strip (String " " s) = s.
Proof.
  intros H. unfold strip. simpl. rewrite (lstrip_id s H). now apply rstrip_id.
Qed.

End StringFacts.

(** ** The text of a number *)

Section NumberText.

Lemma digit_numchar (c : ascii) : is_digit c = true -> numchar c = true.
Proof. each_ascii c. Qed.

Lemma numchar_not_space (c : ascii) :
  numchar c = true -> negb (is_space c) = true.
Proof. each_ascii c. Qed.

Lemma numchar_not_equals (c : ascii) :
  numchar c = true -> negb (Ascii.eqb c "=") = true.
Proof. each_ascii c. Qed.

Lemma digit_lower (c : ascii) : is_digit c = true -> lower c = c.
Proof. each_ascii c. Qed.

Lemma digit_not_sign (c : ascii) (r : string) :
  is_digit c = true -> split_sign (String c r) = (false, String c r).
Proof. each_ascii c. Qed.

Lemma digit_not_point (c : ascii) :
  is_digit c = true -> Ascii.eqb c "." = false.
Proof. each_ascii c. Qed.

Lemma digits_numchars (s : string) :
  all_chars is_digit s = true -> all_chars numchar s = true.
Proof. apply all_chars_weaken, digit_numchar. Qed.

Lemma string_of_uint_digits (d : uint) :
  all_chars is_digit (string_of_uint d) = true.
Proof. induction d; simpl; auto. Qed.

Lemma string_of_uint_nonempty (d : uint) :
  d <> Nil -> string_of_uint d <> "".
Proof. destruct d; simpl; congruence. Qed.

Lemma str_pos_digits (p : positive) : all_chars is_digit (str_pos p) = true.
Proof. apply string_of_uint_digits. Qed.

Lemma str_pos_nonempty (p : positive) : str_pos p <> "".
Proof.
  apply string_of_uint_nonempty.
  apply DecimalPos.Unsigned.to_uint_nonnil.
Qed.

Lemma zeros_digits (n : nat) : all_chars is_digit (zeros n) = true.
Proof. induction n; simpl; auto. Qed.

Lemma rstrip_zeros_digits (s : string) :
  all_chars is_digit s = true -> all_chars is_digit (rstrip_zeros s) = true.
Proof.
  induction s as [|c s IH]; simpl; [reflexivity|].
  intros H. apply andb_true_iff in H as [Hc Hs]. specialize (IH Hs).
  destruct (rstrip_zeros s) as [|c' r'].
  - destruct (Ascii.eqb c "0"); simpl; [reflexivity | now rewrite Hc].
  - simpl in *. now rewrite Hc, IH.
Qed.

Lemma take_drop (n : nat) (s : string) : take n s ++ drop n s = s.
Proof.
  revert s. induction n as [|n IH]; intros [|c s]; simpl; try reflexivity.
  now rewrite IH.
Qed.

Lemma take_digits (n : nat) (s : string) :
  all_chars is_digit s = true -> all_chars is_digit (take n s) = true.
Proof.
  revert s. induction n as [|n IH]; intros [|c s]; simpl; try reflexivity.
  intros H. apply andb_true_iff in H as [Hc Hs]. now rewrite Hc, (IH s Hs).
Qed.

Lemma drop_digits (n : nat) (s : string) :
  all_chars is_digit s = true -> all_chars is_digit (drop n s) = true.
Proof.
  revert s. induction n as [|n IH]; intros [|c s]; simpl; try reflexivity.
  - now intros H.
  - intros H. apply andb_true_iff in H as [Hc Hs]. now apply IH.
Qed.

End NumberText.

(** ** [float] reads every formatted number *)

Section Parsing.

Lemma span_digits_all (a : string) :
  all_chars is_digit a = true -> span_digits a = (a, "").
Proof.
  induction a as [|c a IH]; simpl; [reflexivity|].
  intros H. apply andb_true_iff in H as [Hc Ha].
  now rewrite Hc, (IH Ha).
Qed.

Lemma span_digits_app (a : string) (c : ascii) (b : string) :
  all_chars is_digit a = true -> is_digit c = false ->
  span_digits (a ++ String c b) = (a, String c b).
Proof.
  intros Ha Hc. induction a as [|x a IH]; simpl.
  - now rewrite Hc.
  - simpl in Ha. apply andb_true_iff in Ha as [Hx Ha].
    now rewrite Hx, (IH Ha).
Qed.

Lemma span_digits_tail (a tl : string) :
  all_chars is_digit a = true -> exp_tail tl ->
  span_digits (a ++ tl) = (a, tl).
Proof.
  intros Ha [|neg ed Hed Hne].
  - rewrite append_nil_r. now apply span_digits_all.
  - now apply span_digits_app.
Qed.

Lemma parse_exponent_tail (tl : string) :
  exp_tail tl -> exists x, parse_exponent tl = Some x.
Proof.
  intros [|neg ed Hed Hne]; [now exists 0|].
  destruct ed as [|c ed]; [congruence|].
  cbn [parse_exponent]. change (Ascii.eqb (lower "e") "e") with true. cbv iota.
  assert (Hs : split_sign ((if neg then "-" else "+") ++ String c ed)
               = (neg, String c ed)) by (destruct neg; reflexivity).
  rewrite Hs, (span_digits_all _ Hed). eauto.
Qed.

Lemma exp_tail_not_point (tl : string) :
  exp_tail tl ->
  match tl with
  | String "." r => span_digits r
  | _ => ("", tl)
  end = ("", tl).
Proof. now intros [|neg ed Hed Hne]. Qed.

Lemma parse_decimal_int (neg : bool) (ip tl : string) :
  all_chars is_digit ip = true -> ip <> "" -> exp_tail tl ->
  exists f, parse_decimal neg (ip ++ tl) = Some f.
Proof.
  intros Hip Hne Htl. unfold parse_decimal.
  rewrite (span_digits_tail ip tl Hip Htl), (exp_tail_not_point tl Htl).
  destruct (parse_exponent_tail tl Htl) as [x Hx]. rewrite Hx.
  rewrite append_nil_r.
  destruct ip as [|c ip]; [congruence | eauto].
Qed.

Lemma parse_decimal_frac (neg : bool) (ip fp tl : string) :
  all_chars is_digit ip = true -> all_chars is_digit fp = true ->
  ip ++ fp <> "" -> exp_tail tl ->
  exists f, parse_decimal neg (ip ++ String "." (fp ++ tl)) = Some f.
Proof.
  intros Hip Hfp Hne Htl. unfold parse_decimal.
  rewrite (span_digits_app ip "." (fp ++ tl) Hip eq_refl).
  rewrite (span_digits_tail fp tl Hfp Htl).
  destruct (parse_exponent_tail tl Htl) as [x Hx]. rewrite Hx.
  destruct (ip ++ fp) as [|c m]; [congruence | eauto].
Qed.

Lemma digit_not_inf_nan (c : ascii) (r : string) :
  is_digit c = true ->
  String.eqb (lowercase (String c r)) "inf" = false /\
  String.eqb (lowercase (String c r)) "infinity" = false /\
  String.eqb (lowercase (String c r)) "nan" = false.
Proof.
  intros Hc. cbn [lowercase]. rewrite (digit_lower c Hc).
  cbn [String.eqb]. revert Hc. each_ascii c; intros _; auto.
Qed.

(** A digit-led numeral with an optional minus sign is read as its
    decimal value. *)
Lemma parse_float_numeral (neg : bool) (c : ascii) (r : string) (f : spec_float) :
  is_digit c = true -> all_chars numchar (String c r) = true ->
  parse_decimal neg (String c r) = Some f ->
  parse_float ((if neg then "-" else "") ++ String c r) = Some f.
Proof.
  intros Hc Hnum Hf. unfold parse_float.
  rewrite strip_id.
  2:{ apply all_chars_weaken with (P := numchar); [apply numchar_not_space|].
      rewrite all_chars_app, Hnum. now destruct neg. }
  assert (Hs : split_sign ((if neg then "-" else "") ++ String c r)
               = (neg, String c r)).
  { destruct neg; [reflexivity|]. now apply digit_not_sign. }
  rewrite Hs.
  destruct (digit_not_inf_nan c r Hc) as (H1 & H2 & H3).
  now rewrite H1, H2, H3.
Qed.

End Parsing.

(** ** What [str] writes *)

Section Formatting.

Lemma str_int_digits (z : Z) :
  0 <= z -> all_chars is_digit (str_int z) = true /\ str_int z <> "".
Proof.
  destruct z as [|p|p]; intros Hz; [split; [reflexivity|discriminate] | | lia].
  split; [apply str_pos_digits | apply str_pos_nonempty].
Qed.

Lemma digits_head (s : string) :
  all_chars is_digit s = true -> s <> "" ->
  exists c r, s = String c r /\ is_digit c = true.
Proof.
  destruct s as [|c r]; [congruence|]. simpl. intros H _.
  apply andb_true_iff in H as [Hc _]. eauto.
Qed.

Lemma format_exponent_tail (x : Z) : exp_tail ("e" ++ format_exponent x).
Proof.
  unfold format_exponent.
  destruct (str_int_digits (Z.abs x) (Z.abs_nonneg x)) as [Hd Hne].
  change ("e" ++ ?t) with (String "e" t).
  destruct (zlen (str_int (Z.abs x)) <? 2).
  - apply (exp_some (x <? 0) ("0" ++ str_int (Z.abs x))); [|discriminate].
    simpl. exact Hd.
  - now apply (exp_some (x <? 0) (str_int (Z.abs x))).
Qed.

Lemma exp_tail_numchars (tl : string) :
  exp_tail tl -> all_chars numchar tl = true.
Proof.
  intros [|neg ed Hed Hne]; [reflexivity|].
  change (String "e" ?t) with ("e" ++ t).
  rewrite !all_chars_app, (digits_numchars ed Hed). now destruct neg.
Qed.

Lemma numeral_int (ip tl : string) :
  all_chars is_digit ip = true -> ip <> "" -> exp_tail tl ->
  numeral (ip ++ tl).
Proof.
  intros Hip Hne Htl. split; [|split].
  - destruct (digits_head ip Hip Hne) as (c & r & -> & Hc).
    exists c, (r ++ tl). now split.
  - now rewrite all_chars_app, (digits_numchars ip Hip), (exp_tail_numchars tl Htl).
  - intros neg. now apply parse_decimal_int.
Qed.

Lemma numeral_frac (ip fp tl : string) :
  all_chars is_digit ip = true -> ip <> "" ->
  all_chars is_digit fp = true -> exp_tail tl ->
  numeral (ip ++ String "." (fp ++ tl)).
Proof.
  intros Hip Hne Hfp Htl. split; [|split].
  - destruct (digits_head ip Hip Hne) as (c & r & -> & Hc).
    exists c, (r ++ String "." (fp ++ tl)). now split.
  - change (String "." ?t) with ("." ++ t).
    now rewrite !all_chars_app, (digits_numchars ip Hip),
      (digits_numchars fp Hfp), (exp_tail_numchars tl Htl).
  - intros neg. apply parse_decimal_frac; auto.
    destruct ip; [congruence | discriminate].
Qed.

Lemma format_repr_numeral (ds : string) (decpt : Z) :
  all_chars is_digit ds = true -> ds <> "" -> numeral (format_repr ds decpt).
Proof.
  intros Hds Hne. unfold format_repr.
  destruct ((decpt <=? -4) || (16 <? decpt)).
  - destruct ds as [|c [|c' r]]; [congruence| |].
    + apply (numeral_int (String c "")); auto using format_exponent_tail.
    + simpl in Hds. apply andb_true_iff in Hds as [Hc Hr].
      apply (numeral_frac (String c "") (String c' r));
        auto using format_exponent_tail; try discriminate.
      simpl. now rewrite Hc.
  - destruct (decpt <=? 0) eqn:H0.
    + pose proof (numeral_frac "0" (zeros (Z.to_nat (- decpt)) ++ ds) "") as H.
      rewrite append_nil_r in H. apply H; auto using exp_none; try discriminate.
      now rewrite all_chars_app, zeros_digits.
    + destruct (zlen ds <=? decpt).
      * pose proof (numeral_frac (ds ++ zeros (Z.to_nat (decpt - zlen ds))) "0" "") as H.
        rewrite append_assoc in H. apply H; auto using exp_none.
        -- now rewrite all_chars_app, zeros_digits, Hds.
        -- destruct ds; [congruence | discriminate].
      * pose proof (numeral_frac (take (Z.to_nat decpt) ds)
                      (drop (Z.to_nat decpt) ds) "") as H.
        rewrite append_nil_r in H.
        apply H; auto using exp_none, take_digits, drop_digits.
        destruct (Z.to_nat decpt) eqn:Hn; [apply Z.leb_gt in H0; lia|].
        destruct ds; [congruence | discriminate].
Qed.

(** *** The digits of a float are digits *)

Lemma pow10_pos (t : Z) : 0 < 10 ^ Z.max t 0.
Proof. apply Z.pow_pos_nonneg; lia. Qed.

Lemma pow2_pos (t : Z) : 0 < 2 ^ Z.max t 0.
Proof. apply Z.pow_pos_nonneg; lia. Qed.

Lemma scaled_pos (n d t : Z) :
  0 < n -> 0 < d -> 0 < fst (scaled n d t) /\ 0 < snd (scaled n d t).
Proof.
  intros Hn Hd. unfold scaled; simpl.
  pose proof (pow10_pos t). pose proof (pow10_pos (- t)). split; nia.
Qed.

Lemma div_half_even_nonneg (n d : Z) :
  0 < n -> 0 < d -> 0 <= div_half_even n d.
Proof.
  intros Hn Hd. unfold div_half_even.
  assert (0 <= n / d) by (apply Z.div_pos; lia).
  destruct (2 * (n mod d) ?= d); [destruct (Z.even (n / d))| |]; lia.
Qed.

Lemma candidate_nonneg (x : spec_float) (n d E k c t : Z) :
  0 < n -> 0 < d -> candidate x n d E k = Some (c, t) -> 0 <= c.
Proof.
  intros Hn Hd. unfold candidate.
  destruct (scaled_pos n d (k - E) Hn Hd) as [Hn' Hd'].
  destruct (scaled n d (k - E)) as [n' d']. simpl in Hn', Hd'.
  assert (0 <= n' / d') by (apply Z.div_pos; lia).
  destruct (SFeqb _ x), (SFeqb _ x); try discriminate;
    [destruct (2 * (n' mod d') ?= d'); [destruct (Z.even (n' / d'))| |]| |];
    intros [= <- _]; lia.
Qed.

Lemma shortest_nonneg (fuel : nat) (x : spec_float) (n d E k : Z) :
  0 < n -> 0 < d -> 0 <= fst (shortest fuel x n d E k).
Proof.
  intros Hn Hd. revert k. induction fuel as [|fuel IH]; intros k; cbn [shortest].
  - destruct (scaled_pos n d (k - E) Hn Hd) as [Hn' Hd'].
    destruct (scaled n d (k - E)) as [n' d']. cbn [fst snd] in *.
    now apply div_half_even_nonneg.
  - destruct (candidate x n d E k) as [[c t]|] eqn:Hc; [|apply IH].
    cbn [fst]. now apply (candidate_nonneg x n d E k c t).
Qed.

Lemma float_digits_digits (m : positive) (e : Z) :
  all_chars is_digit (fst (float_digits m e)) = true /\
  fst (float_digits m e) <> "".
Proof.
  unfold float_digits.
  set (n := Z.pos m * 2 ^ Z.max e 0). set (d := 2 ^ Z.max (- e) 0).
  assert (Hn : 0 < n) by (pose proof (pow2_pos e); subst n; nia).
  assert (Hd : 0 < d) by apply pow2_pos.
  pose proof (shortest_nonneg 16 (S754_finite false m e) n d
                (decimal_exponent n d) 1 Hn Hd) as Hc.
  destruct (shortest 16 _ n d _ 1) as [c t]. simpl in Hc. simpl.
  destruct (str_int_digits c Hc) as [Hdig _].
  pose proof (rstrip_zeros_digits _ Hdig) as Hr.
  destruct (rstrip_zeros (str_int c)); [split; [reflexivity|discriminate]|].
  split; [exact Hr | discriminate].
Qed.

(** *** [str] of a number is read back by [float] *)

Lemma numeral_signed (neg : bool) (s : string) :
  numeral s ->
  all_chars numchar ((if neg then "-" else "") ++ s) = true /\
  exists f, parse_float ((if neg then "-" else "") ++ s) = Some f.
Proof.
  intros ((c & r & -> & Hc) & Hnum & Hparse). split.
  - rewrite all_chars_app, Hnum. now destruct neg.
  - destruct (Hparse neg) as [f Hf]. exists f.
    now apply parse_float_numeral.
Qed.

Lemma str_pos_numeral (p : positive) : numeral (str_pos p).
Proof.
  rewrite <- (append_nil_r (str_pos p)).
  apply numeral_int; auto using str_pos_digits, str_pos_nonempty, exp_none.
Qed.

Lemma py_str_text (x : num) :
  all_chars numchar (py_str x) = true /\
  exists f, parse_float (py_str x) = Some f.
Proof.
  destruct x as [z|f]; simpl.
  - destruct z as [|p|p]; simpl.
    + split; [reflexivity | eexists; reflexivity].
    + apply (numeral_signed false), str_pos_numeral.
    + apply (numeral_signed true), str_pos_numeral.
  - destruct f as [s|s| |s m e]; simpl.
    + destruct s; (split; [reflexivity | eexists; reflexivity]).
    + destruct s; (split; [reflexivity | eexists; reflexivity]).
    + split; [reflexivity | eexists; reflexivity].
    + destruct (float_digits_digits m e) as [Hd Hne].
      destruct (float_digits m e) as [ds decpt]. simpl in Hd, Hne.
      apply numeral_signed. now apply format_repr_numeral.
Qed.

End Formatting.

(** ** The text of an int reads back as the nearest float *)

Section IntText.







End IntText.

(** ** Rounding to binary64 *)

Section IntegerFloats.

Lemma digits2_pos_bounds (p : positive) :
  2 ^ (Zpos (digits2_pos p) - 1) <= Zpos p < 2 ^ Zpos (digits2_pos p).
Proof.
  induction p as [p IH|p IH|]; cbn [digits2_pos]; [| |simpl; lia].
  - rewrite Pos2Z.inj_succ. change (Zpos p~1) with (2 * Zpos p + 1).
    replace (Z.succ (Zpos (digits2_pos p)) - 1) with (Z.succ (Zpos (digits2_pos p) - 1)) by lia.
    rewrite !Z.pow_succ_r by lia. hide_pow. lia.
  - rewrite Pos2Z.inj_succ. change (Zpos p~0) with (2 * Zpos p).
    replace (Z.succ (Zpos (digits2_pos p)) - 1) with (Z.succ (Zpos (digits2_pos p) - 1)) by lia.
    rewrite !Z.pow_succ_r by lia. hide_pow. lia.
Qed.

Lemma shr_1_m (mrs : shr_record) :
  0 <= shr_m mrs -> shr_m (shr_1 mrs) = shr_m mrs / 2.
Proof.
  destruct mrs as [m r s]. cbn [shr_m]. intros Hm.
  rewrite <- Z.div2_div.
  destruct m as [|[p|p|]|p]; try reflexivity; lia.
Qed.

Lemma pow2_gt_0 (n : positive) : 0 < 2 ^ Zpos n.
Proof. apply Z.pow_pos_nonneg; lia. Qed.

Lemma div_pow2_twice (m a b : Z) :
  0 <= a -> 0 <= b -> m / 2 ^ a / 2 ^ b = m / 2 ^ (a + b).
Proof.
  intros Ha Hb. rewrite Z.pow_add_r by assumption.
  assert (0 < 2 ^ a) by (apply Z.pow_pos_nonneg; lia).
  assert (0 < 2 ^ b) by (apply Z.pow_pos_nonneg; lia).
  apply Z.div_div; lia.
Qed.

Lemma iter_shr_m (n : positive) (mrs : shr_record) :
  0 <= shr_m mrs ->
  shr_m (iter_pos shr_1 n mrs) = shr_m mrs / 2 ^ Zpos n.
Proof.
  assert (Hdiv : forall m k, 0 <= m -> 0 <= m / 2 ^ Zpos k)
    by (intros m k Hm; apply Z.div_pos; [exact Hm | apply pow2_gt_0]).
  revert mrs. induction n as [n IH|n IH|]; intros mrs Hm; cbn [iter_pos].
  - assert (H1 : 0 <= shr_m (shr_1 mrs))
      by (rewrite shr_1_m by exact Hm; apply Z.div_pos; lia).
    assert (H2 : 0 <= shr_m (iter_pos shr_1 n (shr_1 mrs)))
      by (rewrite IH by exact H1; now apply Hdiv).
    rewrite IH, IH, shr_1_m by assumption.
    change (shr_m mrs / 2) with (shr_m mrs / 2 ^ 1).
    rewrite !div_pow2_twice by lia. f_equal. f_equal. lia.
  - assert (H2 : 0 <= shr_m (iter_pos shr_1 n mrs))
      by (rewrite IH by exact Hm; now apply Hdiv).
    rewrite IH, IH by assumption.
    rewrite div_pow2_twice by lia. f_equal. f_equal. lia.
  - now apply shr_1_m.
Qed.

Lemma shr_record_of_loc_m (m : Z) (l : location) : shr_m (shr_record_of_loc m l) = m.
Proof. now destruct l as [|[| |]]. Qed.

(** Above the range of subnormal numbers the exponent is the number of digits
    less the precision. *)
Lemma fexp_normal (x : Z) : -1021 <= x -> fexp prec emax x = x - 53.
Proof. unfold fexp, emin, prec, emax. lia. Qed.

(** Shifting a positive mantissa to the precision leaves it positive. *)
Lemma shr_fexp_pos (p : positive) (e : Z) (l : location) :
  -1021 <= e ->
  0 < shr_m (fst (shr_fexp prec emax (Zpos p) e l)) /\
  e <= snd (shr_fexp prec emax (Zpos p) e l).
Proof.
  intros He. unfold shr_fexp. cbn [Zdigits2].
  rewrite fexp_normal by lia.
  pose proof (digits2_pos_bounds p) as [Hlo _].
  destruct (Zpos (digits2_pos p) + e - 53 - e) as [|n|n] eqn:Hn; cbn [shr fst snd];
    rewrite ?shr_record_of_loc_m; try lia.
  rewrite iter_shr_m, shr_record_of_loc_m by (rewrite shr_record_of_loc_m; lia).
  split; [|lia].
  apply Z.div_str_pos. split; [apply Z.pow_pos_nonneg; lia|].
  apply Z.le_trans with (2 ^ (Zpos (digits2_pos p) - 1)); [|exact Hlo].
  apply Z.pow_le_mono_r; lia.
Qed.

Lemma round_nearest_even_pos (m : Z) (l : location) :
  0 < m -> 0 < round_nearest_even m l.
Proof.
  intros Hm. destruct l as [|[| |]]; cbn [round_nearest_even]; try lia.
  destruct (Z.even m); lia.
Qed.

(** Rounding a positive mantissa above the subnormal range gives a
    positive float or an infinity, never a zero. *)
Lemma eqb_Z_finite_nonzero (s : bool) (m : positive) (e : Z) :
  eqb_Z (S754_finite s m e) 0 = false.
Proof.
  unfold eqb_Z. destruct (0 <=? e) eqn:He.
  - apply Z.eqb_neq. apply Z.leb_le in He.
    assert (0 < 2 ^ e) by (apply Z.pow_pos_nonneg; lia).
    destruct s; nia.
  - now destruct s.
Qed.

Lemma binary_round_aux_nonzero (s : bool) (p : positive) (e : Z) (l : location) :
  -1021 <= e ->
  eqb_Z (binary_round_aux prec emax s (Zpos p) e l) 0 = false.
Proof.
  intros He. unfold binary_round_aux.
  destruct (shr_fexp_pos p e l He) as [Hm1 He1].
  destruct (shr_fexp prec emax (Zpos p) e l) as [mrs1 e1]. cbn [fst snd] in Hm1, He1.
  pose proof (round_nearest_even_pos _ (loc_of_shr_record mrs1) Hm1) as Hm2.
  destruct (round_nearest_even (shr_m mrs1) (loc_of_shr_record mrs1)) as [|m2|m2]; try lia.
  destruct (shr_fexp_pos m2 e1 loc_Exact ltac:(lia)) as [Hm3 _].
  destruct (shr_fexp prec emax (Zpos m2) e1 loc_Exact) as [mrs3 e3]. cbn [fst] in Hm3.
  destruct (shr_m mrs3) as [|m3|m3]; try lia.
  destruct (e3 <=? emax - prec); [apply eqb_Z_finite_nonzero | reflexivity].
Qed.

(** *** Integers as floats *)





Lemma shl_align_exponent (p : positive) (e e' : Z) :
  snd (shl_align p e e') = Z.min e e'.
Proof.
  unfold shl_align. destruct (e' - e) as [|k|k] eqn:Hk; cbn [snd]; lia.
Qed.

(** An int that is not zero converts to a float that is not zero. *)
Lemma of_Z_nonzero (z : Z) : z <> 0 -> eqb_Z (of_Z z) 0 = false.
Proof.
  assert (H : forall s p, eqb_Z (binary_round prec emax s p 0) 0 = false).
  { intros s p. unfold binary_round.
    pose proof (shl_align_exponent p 0 (fexp prec emax (Zpos (digits2_pos p) + 0))) as He.
    destruct (shl_align p 0 _) as [mz ez]. cbn [snd] in He.
    rewrite fexp_normal in He by lia.
    apply binary_round_aux_nonzero. lia. }
  intros Hz. destruct z as [|p|p]; [congruence | apply H | apply H].
Qed.


(** With a divisor that is not zero, [/] does not raise
    [ZeroDivisionError]: it returns a float or overflows. *)
Lemma truediv_nonzero (a b : num) :
  is_zero b = false ->
  (exists q, py_truediv a b = Ok (PFloat q)) \/
  (exists msg, py_truediv a b = Err (OverflowError msg)).
Proof.
  intros Hb. unfold py_truediv.
  assert (Hint : forall z, (exists x, int_to_float z = Ok x /\ x = of_Z z) \/
                           (exists msg, int_to_float z = Err (OverflowError msg))).
  { intros z. unfold int_to_float. destruct (is_infinite (of_Z z)); eauto. }
  destruct a as [x|x], b as [y|y]; cbn [to_float rbind]; simpl in Hb.
  - rewrite Hb. destruct (is_infinite _); eauto.
  - destruct (Hint x) as [(x' & -> & _)|(msg & ->)]; cbn [rbind]; [|eauto].
    rewrite Hb. eauto.
  - destruct (Hint y) as [(y' & -> & ->)|(msg & ->)]; cbn [rbind]; [|eauto].
    rewrite of_Z_nonzero by (apply Z.eqb_neq, Hb). eauto.
  - rewrite Hb. eauto.
Qed.

End IntegerFloats.

(** ** The methods, step by step *)

Section Methods.

Lemma reread_parse (r : num) : parse_float (py_str r) = Some (reread r).
Proof.
  unfold reread, float_lit.
  destruct (py_str_text r) as [_ [f Hf]]. now rewrite Hf.
Qed.

Lemma reread_float (r : num) : py_float (py_str r) = Ok (reread r).
Proof. unfold py_float. now rewrite reread_parse. Qed.


Lemma result_text (text : string) (r : num) :
  strip (last_item (split "=" (text ++ " = " ++ py_str r))) = py_str r.
Proof.
  destruct (py_str_text r) as [Hnum _].
  replace (text ++ " = " ++ py_str r)
    with ((text ++ " ") ++ String "=" (String " " (py_str r)))
    by (now rewrite append_assoc).
  rewrite last_item_split.
  - apply strip_space_id.
    revert Hnum. apply all_chars_weaken, numchar_not_space.
  - simpl. revert Hnum. apply all_chars_weaken, numchar_not_equals.
Qed.

Lemma log_operation_success (self : Calculator) (text : string) (r : num) :
  _log_operation (text ++ " = " ++ py_str r) false self
  = (Ok tt, logged self (text ++ " = " ++ py_str r) r).
Proof.
  unfold _log_operation, bind, history_append, lift, set_last_result, logged.
  cbn [negb]. now rewrite result_text, reread_float.
Qed.

Lemma log_operation_error (self : Calculator) (entry : string) :
  _log_operation entry true self = (Ok tt, logged_error self entry).
Proof. reflexivity. Qed.

(** The shape shared by the four operations. *)
Lemma compute_log_return (self : Calculator) (text : string)
      (entry : num -> string) (raw : result num) :
  (forall r, entry r = text ++ " = " ++ py_str r) ->
  (p <- get_precision ;;
   result <- lift (rbind raw (fun v => py_round v p)) ;;
   _log_operation (entry result) false ;;
   ret result) self
  = outcome self text raw.
Proof.
  intros Hentry. unfold outcome, bind at 1 2, get_precision, lift.
  destruct (rbind raw _) as [r|e]; [|reflexivity].
  unfold bind. now rewrite Hentry, log_operation_success.
Qed.

Lemma add_outcome (a b : num) (self : Calculator) :
  add a b self = outcome self (py_str a ++ " + " ++ py_str b) (py_add a b).
Proof.
  apply (compute_log_return self _
           (fun r => py_str a ++ " + " ++ py_str b ++ " = " ++ py_str r)).
  intros r. now rewrite !append_assoc.
Qed.

Lemma multiply_outcome (a b : num) (self : Calculator) :
  multiply a b self = outcome self (py_str a ++ " * " ++ py_str b) (py_mul a b).
Proof.
  apply (compute_log_return self _
           (fun r => py_str a ++ " * " ++ py_str b ++ " = " ++ py_str r)).
  intros r. now rewrite !append_assoc.
Qed.

Lemma divide_outcome (a b : num) (self : Calculator) :
  is_zero b = false ->
  divide a b self = outcome self (py_str a ++ " / " ++ py_str b) (py_truediv a b).
Proof.
  intros Hb. unfold divide. rewrite Hb.
  apply (compute_log_return self _
           (fun r => py_str a ++ " / " ++ py_str b ++ " = " ++ py_str r)).
  intros r. now rewrite !append_assoc.
Qed.

Lemma average_outcome (x : num) (rest : list num) (self : Calculator) :
  calculate_average (x :: rest) self
  = outcome self ("avg(" ++ str_list (x :: rest) ++ ")")
      (rbind (py_sum (x :: rest)) (fun s => py_truediv s (py_len (x :: rest)))).
Proof.
  apply (compute_log_return self _
           (fun r => "avg(" ++ str_list (x :: rest) ++ ") = " ++ py_str r)).
  intros r. now rewrite !append_assoc.
Qed.

Lemma divide_zero (a b : num) (self : Calculator) :
  is_zero b = true ->
  divide a b self
  = (Err DivisionByZero,
     logged_error self (py_str a ++ " / " ++ py_str b ++ " = ERROR")).
Proof. intros Hb. unfold divide. now rewrite Hb. Qed.

End Methods.

(** ** Which errors the builtins raise *)

Section ArithErrors.

Lemma arith_ok {A : Type} (a : A) : arith (Ok a).
Proof. intros e H. discriminate. Qed.

Lemma arith_rbind {A B : Type} (r : result A) (k : A -> result B) :
  arith r -> (forall a, arith (k a)) -> arith (rbind r k).
Proof.
  intros Hr Hk e. destruct r as [a|e']; simpl.
  - apply Hk.
  - intros [= <-]. now apply Hr.
Qed.

Lemma arith_to_float (a : num) : arith (to_float a).
Proof.
  intros e. destruct a as [z|f]; simpl; [|discriminate].
  unfold int_to_float. destruct (is_infinite (of_Z z)); [|discriminate].
  now intros [= <-].
Qed.

Lemma arith_float_op (a b : num) (op : spec_float -> spec_float -> spec_float) :
  arith (rbind (to_float a) (fun x =>
         rbind (to_float b) (fun y => Ok (PFloat (op x y))))).
Proof.
  apply arith_rbind; [apply arith_to_float|]. intros x.
  apply arith_rbind; [apply arith_to_float|]. intros y. apply arith_ok.
Qed.

Lemma arith_add (a b : num) : arith (py_add a b).
Proof.
  destruct a as [x|x], b as [y|y]; try apply arith_float_op. apply arith_ok.
Qed.

Lemma arith_mul (a b : num) : arith (py_mul a b).
Proof.
  destruct a as [x|x], b as [y|y]; try apply arith_float_op. apply arith_ok.
Qed.

Lemma arith_float_div (a b : num) :
  arith (rbind (to_float a) (fun x =>
         rbind (to_float b) (fun y =>
         if eqb_Z y 0 then Err (ZeroDivisionError "float division by zero")
         else Ok (PFloat (fdiv x y))))).
Proof.
  apply arith_rbind; [apply arith_to_float|]. intros x.
  apply arith_rbind; [apply arith_to_float|]. intros y e.
  destruct (eqb_Z y 0); [|discriminate]. now intros [= <-].
Qed.

Lemma arith_truediv (a b : num) : arith (py_truediv a b).
Proof.
  destruct a as [x|x], b as [y|y]; try apply arith_float_div.
  intros e. unfold py_truediv.
  destruct (y =? 0); [now intros [= <-]|].
  destruct (is_infinite _); [now intros [= <-] | discriminate].
Qed.

Lemma arith_round (v : num) (ndigits : Z) : arith (py_round v ndigits).
Proof.
  intros e. destruct v as [z|f]; simpl; [discriminate|].
  assert (H : arith (round_float f ndigits)).
  { intros e'. destruct f as [s|s| |s m x]; simpl; try discriminate.
    destruct (NDIGITS_MAX <? ndigits); [discriminate|].
    destruct (ndigits <? NDIGITS_MIN); [discriminate|].
    unfold double_round. destruct (is_infinite _); [|discriminate].
    now intros [= <-]. }
  destruct (round_float f ndigits) as [r|e']; simpl; [discriminate|].
  intros [= <-]. now apply H.
Qed.

Lemma arith_sum_from (numbers : list num) (acc : num) :
  arith (sum_from acc numbers).
Proof.
  revert acc. induction numbers as [|x rest IH]; intros acc; simpl.
  - apply arith_ok.
  - apply arith_rbind; [apply arith_add | intros acc'; apply IH].
Qed.

Lemma arith_average (numbers : list num) :
  arith (rbind (py_sum numbers) (fun s => py_truediv s (py_len numbers))).
Proof.
  apply arith_rbind; [apply arith_sum_from | intros s; apply arith_truediv].
Qed.

Lemma arith_rounded (raw : result num) (ndigits : Z) :
  arith raw -> arith (rbind raw (fun v => py_round v ndigits)).
Proof. intros H. apply arith_rbind; [exact H | intros v; apply arith_round]. Qed.

End ArithErrors.

(** ** Every call, case by case *)

Section Calls.

Lemma outcome_result (self : Calculator) (text : string) (raw : result num) :
  fst (outcome self text raw)
  = rbind raw (fun v => py_round v (precision self)).
Proof. unfold outcome. now destruct (rbind raw _). Qed.

Lemma chain_dispatch (op : string) :
  (op = "add" /\ lookup operations op = Some (fun x y => add x y)
     /\ lookup pure_operations op = Some calculator.add) \/
  (op = "mul" /\ lookup operations op = Some (fun x y => multiply x y)
     /\ lookup pure_operations op = Some calculator.multiply) \/
  (op = "div" /\ lookup operations op = Some (fun x y => divide x y)
     /\ lookup pure_operations op = Some calculator.divide) \/
  (~ In op ["add"; "mul"; "div"] /\ lookup operations op = None
     /\ lookup pure_operations op = None).
Proof.
  unfold operations, pure_operations, lookup.
  destruct (String.eqb_spec op "add") as [->|Hadd]; [auto|].
  destruct (String.eqb_spec op "mul") as [->|Hmul]; [auto|].
  destruct (String.eqb_spec op "div") as [->|Hdiv]; [auto 6|].
  do 3 right. simpl. intuition congruence.
Qed.

Lemma chain_operation_run (op : string) (value : num) (self : Calculator) :
  chain_operation op value self
  = match last_result self with
    | None => (Err NoPreviousResult, self)
    | Some x =>
        match lookup operations op with
        | None => (Err (UnknownOperation op), self)
        | Some f => f (PFloat x) value self
        end
    end.
Proof.
  unfold chain_operation, bind, get_last_result.
  destruct (last_result self) as [x|]; [|reflexivity].
  now destruct (lookup operations op).
Qed.

(** What a call returns: the function of [calculator.py] it stands for,
    then [round]. *)
Lemma direct_call_result (c : call) (self : Calculator) :
  (forall op value, c <> Chain op value) ->
  fst (run_call c self)
  = rbind (raw_result c self) (fun v => py_round v (precision self)).
Proof.
  intros Hc. destruct c as [a b|a b|a b|numbers|op value]; simpl.
  - now rewrite add_outcome, outcome_result.
  - now rewrite multiply_outcome, outcome_result.
  - unfold calculator.divide. destruct (is_zero b) eqn:Hb.
    + now rewrite divide_zero.
    + now rewrite divide_outcome, outcome_result.
  - destruct numbers as [|x rest]; [reflexivity|].
    now rewrite average_outcome, outcome_result.
  - now destruct (Hc op value).
Qed.

Lemma run_call_result (c : call) (self : Calculator) :
  fst (run_call c self)
  = rbind (raw_result c self) (fun v => py_round v (precision self)).
Proof.
  destruct c as [a b|a b|a b|numbers|op value];
    try (apply direct_call_result; discriminate).
  cbn [run_call raw_result]. rewrite chain_operation_run.
  destruct (last_result self) as [x|]; [|reflexivity].
  destruct (chain_dispatch op) as [H|[H|[H|H]]];
    destruct H as (Hop & -> & ->); [| | |reflexivity].
  - apply (direct_call_result (Add (PFloat x) value)). discriminate.
  - apply (direct_call_result (Multiply (PFloat x) value)). discriminate.
  - apply (direct_call_result (Divide (PFloat x) value)). discriminate.
Qed.

Lemma arith_not_zero_division (e : exn) :
  arith_error e -> e <> DivisionByZero.
Proof. destruct e; simpl; [contradiction | discriminate | discriminate]. Qed.

Lemma outcome_effect (self : Calculator) (text : string) (raw : result num) :
  arith raw ->
  effect self (fst (outcome self text raw)) (snd (outcome self text raw)).
Proof.
  intros Hraw. unfold outcome.
  pose proof (arith_rounded raw (precision self) Hraw) as H.
  destruct (rbind raw _) as [r|e]; simpl.
  - apply effect_logged.
  - apply effect_none, arith_not_zero_division, H. reflexivity.
Qed.

Lemma direct_call_effect (c : call) (self : Calculator) :
  (forall op value, c <> Chain op value) ->
  effect self (fst (run_call c self)) (snd (run_call c self)).
Proof.
  intros Hc. destruct c as [a b|a b|a b|numbers|op value]; cbn [run_call].
  - rewrite add_outcome. apply outcome_effect, arith_add.
  - rewrite multiply_outcome. apply outcome_effect, arith_mul.
  - destruct (is_zero b) eqn:Hb.
    + rewrite divide_zero by exact Hb. apply effect_zero.
    + rewrite divide_outcome by exact Hb. apply outcome_effect, arith_truediv.
  - destruct numbers as [|x rest].
    + apply effect_none. discriminate.
    + rewrite average_outcome. apply outcome_effect, arith_average.
  - now destruct (Hc op value).
Qed.

Lemma run_call_effect (c : call) (self : Calculator) :
  effect self (fst (run_call c self)) (snd (run_call c self)).
Proof.
  destruct c as [a b|a b|a b|numbers|op value];
    try (apply direct_call_effect; discriminate).
  cbn [run_call]. rewrite chain_operation_run.
  destruct (last_result self) as [x|]; [|apply effect_none; discriminate].
  destruct (chain_dispatch op) as [H|[H|[H|H]]];
    destruct H as (Hop & -> & _).
  - apply (direct_call_effect (Add (PFloat x) value)). discriminate.
  - apply (direct_call_effect (Multiply (PFloat x) value)). discriminate.
  - apply (direct_call_effect (Divide (PFloat x) value)). discriminate.
  - apply effect_none. discriminate.
Qed.

(** The errors of the four operations called directly. *)
Lemma direct_call_errors (c : call) (self : Calculator) (e : exn) :
  (forall op value, c <> Chain op value) ->
  fst (run_call c self) = Err e ->
  arith_error e \/ e = DivisionByZero \/ e = EmptyInput.
Proof.
  intros Hc. rewrite (direct_call_result c self Hc).
  destruct c as [a b|a b|a b|numbers|op value]; cbn [raw_result].
  - intros H. left. now apply (arith_rounded _ (precision self) (arith_add a b)).
  - intros H. left. now apply (arith_rounded _ (precision self) (arith_mul a b)).
  - unfold calculator.divide. destruct (is_zero b).
    + intros [= <-]. auto.
    + intros H. left. now apply (arith_rounded _ (precision self) (arith_truediv a b)).
  - destruct numbers as [|x rest].
    + intros [= <-]. auto.
    + intros H. left. now apply (arith_rounded _ (precision self) (arith_average (x :: rest))).
  - now destruct (Hc op value).
Qed.

Lemma direct_call_not_validation (c : call) (self : Calculator) (e : exn) (op : string) :
  (forall op value, c <> Chain op value) ->
  fst (run_call c self) = Err e ->
  e <> NoPreviousResult /\ e <> UnknownOperation op.
Proof.
  intros Hc He.
  destruct (direct_call_errors c self e Hc He) as [H|[->| ->]].
  - destruct e; simpl in H; [contradiction| |]; split; discriminate.
  - split; discriminate.
  - split; discriminate.
Qed.

Lemma run_calls_cons (c : call) (rest : list call) (self : Calculator) :
  run_calls (c :: rest) self
  = (fst (run_call c self) :: fst (run_calls rest (snd (run_call c self))),
     snd (run_calls rest (snd (run_call c self)))).
Proof.
  change (run_calls (c :: rest) self)
    with (let '(r, self') := run_call c self in
          let '(rs, self'') := run_calls rest self' in (r :: rs, self'')).
  destruct (run_call c self) as [r self']. cbn [fst snd].
  now destruct (run_calls rest self') as [rs self''].
Qed.

End Calls.

(** * The claims *)

(** ** C1: the length of the history *)

Lemma effect_history (self self' : Calculator) (r : result num) :
  effect self r self' ->
  List.length (history self')
  = (List.length (history self) + (if logs r then 1 else 0))%nat.
Proof.
  intros [r' entry|entry|e He]; cbn [logged logged_error history logs].
  - now rewrite length_app.
  - now rewrite length_app.
  - destruct e as [msg|msg|msg]; try lia.
    destruct (String.eqb_spec msg "Cannot divide by zero") as [->|_]; [|lia].
    now destruct He.
Qed.

Lemma run_calls_history (cs : list call) (self : Calculator) :
  List.length (fst (run_calls cs self)) = List.length cs /\
  List.length (history (snd (run_calls cs self)))
  = (List.length (history self)
     + List.length (filter logs (fst (run_calls cs self))))%nat.
Proof.
  revert self. induction cs as [|c rest IH]; intros self.
  - simpl. split; lia.
  - rewrite run_calls_cons. cbn [fst snd].
    destruct (IH (snd (run_call c self))) as [Hlen Hhist].
    rewrite Hhist, (effect_history _ _ _ (run_call_effect c self)).
    cbn [List.length filter]. rewrite Hlen.
    destruct (logs (fst (run_call c self))); cbn [List.length]; split; lia.
Qed.

(** C1, as stated, fails: chaining on a fresh calculator is a call, it
    fails, and the history stays empty. *)
Lemma chain_on_fresh_leaves_no_entry :
  List.length (history (snd (run_calls [Chain "add" (PInt 5)] (__init__ 2))))
  <> List.length [Chain "add" (PInt 5)].
Proof. vm_compute. discriminate. Qed.

(** C1, amended: after any sequence of calls to [add], [multiply],
    [divide], [calculate_average] and [chain_operation] on a fresh
    calculator, every call has an outcome and the history has one entry per
    call that returned a result or failed with the division-by-zero error;
    the other failed calls add none, so the history is at most as long as the
    sequence. *)
Theorem history_length_counts_logged_calls (p : Z) (cs : list call) :
  let run := run_calls cs (__init__ p) in
  List.length (fst run) = List.length cs /\
  List.length (history (snd run)) = List.length (filter logs (fst run)) /\
  (List.length (history (snd run)) <= List.length cs)%nat.
Proof.
  cbv zeta. destruct (run_calls_history cs (__init__ p)) as [Hlen Hhist].
  cbn [__init__ history List.length] in Hhist. cbn [Nat.add] in Hhist.
  repeat split; [exact Hlen | exact Hhist |].
  rewrite Hhist, <- Hlen. apply filter_length_le.
Qed.

(** ** C2: the names [chain_operation] accepts *)

(** C2, as stated, fails: [multiply] is one of the names listed as
    supported, and a calculator that has a last result rejects it as
    unknown. *)
Lemma chain_multiply_is_unknown :
  let self := snd (add (PInt 10) (PInt 5) (__init__ 2)) in
  last_result self <> None /\
  In "multiply" claimed_chainable /\
  chain_operation "multiply" (PInt 2) self
  = (Err (UnknownOperation "multiply"), self).
Proof.
  vm_compute. repeat split; [discriminate | auto].
Qed.

(** C2, amended: on a calculator with a last result, [chain_operation]
    fails with the unknown-operation error exactly when the name is none of
    the dictionary's keys [add], [mul], [div] (so [multiply] and [divide]
    are unknown); for [add], [mul] and [div] the call is the call of [add],
    [multiply] and [divide] on the last result and the value. *)
Theorem chain_operation_dispatch
    (self : Calculator) (x : spec_float) (op : string) (value : num)
    (Hlast : last_result self = Some x) :
  (fst (chain_operation op value self) = Err (UnknownOperation op)
   <-> ~ In op chainable) /\
  (op = "add" -> chain_operation op value self = add (PFloat x) value self) /\
  (op = "mul" -> chain_operation op value self = multiply (PFloat x) value self) /\
  (op = "div" -> chain_operation op value self = divide (PFloat x) value self).
Proof.
  rewrite chain_operation_run, Hlast. split.
  - destruct (chain_dispatch op) as [H|[H|[H|H]]];
      destruct H as (Hop & -> & _).
    + split; [|subst op; simpl; tauto]. intros H.
      now destruct (direct_call_not_validation (Add (PFloat x) value) self _ op
                      ltac:(discriminate) H).
    + split; [|subst op; simpl; tauto]. intros H.
      now destruct (direct_call_not_validation (Multiply (PFloat x) value) self _ op
                      ltac:(discriminate) H).
    + split; [|subst op; simpl; tauto]. intros H.
      now destruct (direct_call_not_validation (Divide (PFloat x) value) self _ op
                      ltac:(discriminate) H).
    + now split.
  - repeat split; intros ->; reflexivity.
Qed.

Lemma chain_operation_dispatch_witness :
  let self := mkCalculator 2 ["10 + 5 = 15"] (Some (of_Z 15)) in
  last_result self = Some (of_Z 15) /\
  chain_operation "mul" (PInt 2) self = multiply (PFloat (of_Z 15)) (PInt 2) self.
Proof.
  split; [reflexivity|].
  apply (chain_operation_dispatch
           (mkCalculator 2 ["10 + 5 = 15"] (Some (of_Z 15))) (of_Z 15) "mul" (PInt 2)
           eq_refl).
  reflexivity.
Defined.

(** ** C3: a division by zero is logged, then raised *)


(** ** C4: [divide] and [calculate_average] of [calculator.py] *)

(** C4: [divide(a, 0)] fails with the division-by-zero error for every [a]
    (for the int 0 and for both float zeros); with a divisor [b] that is not
    zero it is [a / b], which is then a float (or an overflow, never a
    [ZeroDivisionError]); [calculate_average] of the empty list fails with
    the empty-input error, and of a non-empty list it is [sum] of the list
    divided by its [len]. *)
Theorem pure_divide_and_average
    (a b x : num) (rest : list num) (Hb : is_zero b = false) :
  calculator.divide a (PInt 0) = Err DivisionByZero /\
  calculator.divide a (PFloat (S754_zero false)) = Err DivisionByZero /\
  calculator.divide a (PFloat (S754_zero true)) = Err DivisionByZero /\
  calculator.divide a b = py_truediv a b /\
  ((exists q, py_truediv a b = Ok (PFloat q)) \/
   (exists msg, py_truediv a b = Err (OverflowError msg))) /\
  calculator.calculate_average [] = Err EmptyInput /\
  calculator.calculate_average (x :: rest)
  = rbind (py_sum (x :: rest)) (fun s => py_truediv s (py_len (x :: rest))).
Proof.
  repeat split.
  - unfold calculator.divide. now rewrite Hb.
  - now apply truediv_nonzero.
Qed.

Lemma pure_divide_and_average_witness :
  is_zero (PInt 2) = false /\
  calculator.divide (PInt 7) (PInt 2) = Ok (PFloat (float_lit "3.5")) /\
  calculator.calculate_average [PInt 1; PInt 2; PInt 3] = Ok (PFloat (float_lit "2.0")).
Proof.
  pose proof (pure_divide_and_average (PInt 7) (PInt 2) (PInt 1) [PInt 2; PInt 3] eq_refl)
    as (_ & _ & _ & Hdiv & _ & _ & Havg).
  split; [reflexivity|]. split.
  - rewrite Hdiv. vm_compute. reflexivity.
  - rewrite Havg. vm_compute. reflexivity.
Defined.

(** ** C5: a chain of three operations *)

(** C5: on a fresh calculator of precision 2, [add(10, 5)],
    [chain_operation("mul", 2)], [chain_operation("div", 3)] return 15
    (which is [== 15.0]), 30.0 and 10.0; afterwards the last result is 10.0
    and the history has exactly three entries. *)
Theorem chain_of_three :
  let run := run_calls [Add (PInt 10) (PInt 5); Chain "mul" (PInt 2); Chain "div" (PInt 3)]
               (__init__ 2) in
  fst run = [Ok (PInt 15); Ok (PFloat (float_lit "30.0")); Ok (PFloat (float_lit "10.0"))] /\
  py_eq (PInt 15) (PFloat (float_lit "15.0")) = true /\
  last_result (snd run) = Some (float_lit "10.0") /\
  history (snd run) = ["10 + 5 = 15"; "15.0 * 2 = 30.0"; "30.0 / 3 = 10.0"] /\
  List.length (history (snd run)) = 3%nat.
Proof. vm_compute. repeat split. Qed.

(** ** C6: the class against the functions *)



(** ** C7: results are rounded to the precision *)

(** C7: [Calculator(precision=1).divide(10, 3)] returns 3.3 and
    [Calculator(precision=4).divide(10, 3)] returns 3.3333; and whenever a
    call returns a result, that result is [round], at the instance's
    precision, of the raw value the call computed. *)
Theorem results_rounded_to_precision
    (c : call) (self : Calculator) (r : num)
    (Hok : fst (run_call c self) = Ok r) :
  (exists raw, raw_result c self = Ok raw /\ py_round raw (precision self) = Ok r) /\
  fst (divide (PInt 10) (PInt 3) (__init__ 1)) = Ok (PFloat (float_lit "3.3")) /\
  fst (divide (PInt 10) (PInt 3) (__init__ 4)) = Ok (PFloat (float_lit "3.3333")).
Proof.
  split; [|split; vm_compute; reflexivity].
  rewrite run_call_result in Hok.
  destruct (raw_result c self) as [raw|e]; [|discriminate].
  exists raw. now split.
Qed.

Lemma results_rounded_to_precision_witness :
  fst (run_call (Divide (PInt 10) (PInt 3)) (__init__ 1)) = Ok (PFloat (float_lit "3.3")) /\
  exists raw,
    raw_result (Divide (PInt 10) (PInt 3)) (__init__ 1) = Ok raw /\
    py_round raw 1 = Ok (PFloat (float_lit "3.3")).
Proof.
  assert (Hok : fst (run_call (Divide (PInt 10) (PInt 3)) (__init__ 1))
                = Ok (PFloat (float_lit "3.3"))) by (vm_compute; reflexivity).
  split; [exact Hok|].
  exact (proj1 (results_rounded_to_precision
                  (Divide (PInt 10) (PInt 3)) (__init__ 1) _ Hok)).
Defined.

(** ** C8: [clear_history] *)

(** C8: from any state, [clear_history] leaves an empty history and no last
    result (and the same precision), and any [chain_operation] that follows
    fails with the no-previous-result error. *)
Theorem clear_history_resets (self : Calculator) (op : string) (value : num) :
  let cleared := snd (clear_history self) in
  history cleared = [] /\
  last_result cleared = None /\
  precision cleared = precision self /\
  chain_operation op value cleared = (Err NoPreviousResult, cleared).
Proof. repeat split. Qed.

(** ** C9: the last result after a success *)




(** ** C10: a chain that fails its validation changes nothing *)



(** * Further properties of the calculator, of [main.py] and of the
      shared history *)

(** ** Errors and sequences of calls *)

Section Overflow.

Lemma to_float_error (a : num) (e : exn) :
  to_float a = Err e -> e = OverflowError "int too large to convert to float".
Proof.
  destruct a as [z|f]; simpl; [|discriminate].
  unfold int_to_float. destruct (is_infinite (of_Z z)); [|discriminate].
  now intros [= <-].
Qed.









End Overflow.

Section Sequences.

Lemma effect_summary (self self' : Calculator) (r : result num) :
  effect self r self' ->
  precision self' = precision self /\
  last_result self' = match r with
                      | Ok v => Some (reread v)
                      | Err _ => last_result self
                      end /\
  exists entries,
    history self' = (history self ++ entries)%list /\
    List.length entries = (if logs r then 1 else 0)%nat.
Proof.
  intros [r' entry|entry|e He]; cbn [logged logged_error precision last_result history].
  - repeat split. exists [entry]. now split.
  - repeat split. exists [entry]. now split.
  - repeat split. exists []. rewrite app_nil_r. split; [reflexivity|].
    destruct e as [msg|msg|msg]; cbn [logs]; try reflexivity.
    destruct (String.eqb_spec msg "Cannot divide by zero") as [->|_]; [|reflexivity].
    now destruct He.
Qed.

Lemma effect_error (self self' : Calculator) (e : exn) :
  effect self (Err e) self' ->
  (e = DivisionByZero /\ exists entry, self' = logged_error self entry) \/
  (e <> DivisionByZero /\ self' = self).
Proof. intros H. inversion H; subst; [left; eauto | right; auto]. Qed.

Lemma effect_ok (self self' : Calculator) (r : num) :
  effect self (Ok r) self' -> exists entry, self' = logged self entry r.
Proof. intros H. inversion H; subst. eauto. Qed.

End Sequences.



(** X2: a call that fails keeps the last result and the precision; unless
    the failure is a division by zero, which appends one entry, it leaves
    the whole instance as it was. *)
Theorem failed_call_keeps_last_result
    (c : call) (self : Calculator) (e : exn)
    (Hfail : fst (run_call c self) = Err e) :
  last_result (snd (run_call c self)) = last_result self /\
  precision (snd (run_call c self)) = precision self /\
  (e <> DivisionByZero -> snd (run_call c self) = self) /\
  (e = DivisionByZero ->
   exists entry, history (snd (run_call c self)) = (history self ++ [entry])%list).
Proof.
  pose proof (run_call_effect c self) as H. rewrite Hfail in H.
  destruct (effect_error _ _ _ H) as [[-> [entry ->]]|[Hne ->]].
  - cbn [logged_error last_result precision history].
    split; [reflexivity|]. split; [reflexivity|]. split; [|eauto].
    intros Hne. now destruct Hne.
  - split; [reflexivity|]. split; [reflexivity|]. split; [reflexivity|].
    intros ->. now destruct Hne.
Qed.

Lemma failed_call_keeps_last_result_witness :
  let self := mkCalculator 2 ["2 + 3 = 5"] (Some (of_Z 5)) in
  fst (run_call (Divide (PInt 1) (PInt 0)) self) = Err DivisionByZero /\
  last_result (snd (run_call (Divide (PInt 1) (PInt 0)) self)) = Some (of_Z 5).
Proof.
  split; [reflexivity|].
  exact (proj1 (failed_call_keeps_last_result
                  (Divide (PInt 1) (PInt 0))
                  (mkCalculator 2 ["2 + 3 = 5"] (Some (of_Z 5))) DivisionByZero eq_refl)).
Defined.

Section Runs.

Lemma run_calls_summary (cs : list call) (self : Calculator) :
  precision (snd (run_calls cs self)) = precision self /\
  last_result (snd (run_calls cs self))
  = last_success (fst (run_calls cs self)) (last_result self) /\
  exists entries,
    history (snd (run_calls cs self)) = (history self ++ entries)%list /\
    List.length entries = List.length (filter logs (fst (run_calls cs self))).
Proof.
  revert self. induction cs as [|c rest IH]; intros self.
  - cbn. repeat split. exists []. now rewrite app_nil_r.
  - rewrite run_calls_cons. cbn [fst snd].
    destruct (IH (snd (run_call c self))) as (Hp & Hl & entries & Hh & Hn).
    destruct (effect_summary _ _ _ (run_call_effect c self))
      as (Hp1 & Hl1 & entries1 & Hh1 & Hn1).
    split; [congruence|]. split.
    + rewrite Hl, Hl1. unfold last_success. cbn [fold_left].
      now destruct (fst (run_call c self)).
    + exists (entries1 ++ entries)%list. split.
      * now rewrite Hh, Hh1, app_assoc.
      * rewrite length_app, Hn, Hn1. cbn [filter].
        now destruct (logs (fst (run_call c self))).
Qed.

Lemma outcome_history (self : Calculator) (text : string) (raw : result num) (r : num) :
  fst (outcome self text raw) = Ok r ->
  history (snd (outcome self text raw))
  = List.app (history self) [text ++ " = " ++ py_str r].
Proof.
  unfold outcome. destruct (rbind raw _) as [r'|e]; cbn [fst snd]; [|discriminate].
  now intros [= ->].
Qed.

Lemma direct_call_entry (c : call) (self : Calculator) (r : num) :
  (forall op value, c <> Chain op value) ->
  fst (run_call c self) = Ok r ->
  history (snd (run_call c self)) = List.app (history self) [entry_text c self r].
Proof.
  intros Hc. destruct c as [a b|a b|a b|numbers|op value]; cbn [run_call entry_text].
  - rewrite add_outcome. intros H. rewrite (outcome_history _ _ _ _ H).
    now rewrite !append_assoc.
  - rewrite multiply_outcome. intros H. rewrite (outcome_history _ _ _ _ H).
    now rewrite !append_assoc.
  - destruct (is_zero b) eqn:Hb.
    + rewrite divide_zero by exact Hb. discriminate.
    + rewrite divide_outcome by exact Hb. intros H.
      rewrite (outcome_history _ _ _ _ H). now rewrite !append_assoc.
  - destruct numbers as [|x rest]; [discriminate|].
    rewrite average_outcome. intros H. rewrite (outcome_history _ _ _ _ H).
    now rewrite !append_assoc.
  - now destruct (Hc op value).
Qed.

End Runs.

(** X3: the operations only append to the history: after any sequence of
    calls from any state, the old history is a prefix of the new one, and
    the entries added are as many as the calls that returned a result or
    divided by zero. *)
Theorem history_only_grows (cs : list call) (self : Calculator) :
  exists entries,
    history (snd (run_calls cs self)) = (history self ++ entries)%list /\
    List.length entries = List.length (filter logs (fst (run_calls cs self))) /\
    (List.length entries <= List.length cs)%nat.
Proof.
  destruct (run_calls_summary cs self) as (_ & _ & entries & Hh & Hn).
  exists entries. repeat split; [exact Hh | exact Hn |].
  rewrite Hn. destruct (run_calls_history cs self) as [Hlen _].
  rewrite <- Hlen. apply filter_length_le.
Qed.

(** X4: after a sequence of calls the last result is the float read back
    from the last result returned, or what it was before when no call
    succeeded; on a fresh calculator it is absent exactly when every call
    failed. *)
Theorem last_result_tracks_last_success
    (cs : list call) (self : Calculator) (p : Z) :
  last_result (snd (run_calls cs self))
  = last_success (fst (run_calls cs self)) (last_result self) /\
  (last_result (snd (run_calls cs (__init__ p))) = None
   <-> Forall (fun r => exists e, r = Err e) (fst (run_calls cs (__init__ p)))).
Proof.
  split; [now destruct (run_calls_summary cs self) as (_ & Hl & _)|].
  destruct (run_calls_summary cs (__init__ p)) as (_ & Hl & _).
  rewrite Hl. cbn [__init__ last_result]. clear Hl.
  generalize (fst (run_calls cs (__init__ p))) as rs. intros rs.
  assert (Hsome : forall rs' x, last_success rs' (Some x) <> None).
  { induction rs' as [|r rs' IH]; intros x; cbn; [discriminate|].
    destruct r; apply IH. }
  induction rs as [|r rs IH]; cbn.
  - split; auto.
  - destruct r as [v|e].
    + split; [intros H; now destruct (Hsome rs (reread v))|].
      intros H. inversion H as [|? ? [e He] _]. discriminate.
    + rewrite IH. split; [intros H; constructor; eauto|].
      intros H. now inversion H.
Qed.

(** X5: a call that returns [r] appends exactly one entry, the operands'
    texts around the operator (for a chained call the last result's text
    on the left, for an average the list in [avg(...)]) followed by
    [" = "] and the text of [r]; and the text [_log_operation] cuts out of
    that entry after the last [=] is the text of [r]. *)
Theorem successful_call_entry
    (c : call) (self : Calculator) (r : num)
    (Hok : fst (run_call c self) = Ok r) :
  history (snd (run_call c self)) = List.app (history self) [entry_text c self r] /\
  strip (last_item (split "=" (entry_text c self r))) = py_str r.
Proof.
  assert (Hentry : history (snd (run_call c self))
                   = List.app (history self) [entry_text c self r]).
  { destruct c as [a b|a b|a b|numbers|op value];
      try (apply direct_call_entry; [discriminate | exact Hok]).
    cbn [run_call entry_text] in Hok |- *. rewrite chain_operation_run in Hok |- *.
    destruct (last_result self) as [x|]; [|discriminate].
    destruct (chain_dispatch op) as [H|[H|[H|H]]];
      destruct H as (Hop & Hlookup & _); rewrite Hlookup in Hok |- *;
      try discriminate; subst op.
    - apply (direct_call_entry (Add (PFloat x) value)); [discriminate | exact Hok].
    - apply (direct_call_entry (Multiply (PFloat x) value)); [discriminate | exact Hok].
    - apply (direct_call_entry (Divide (PFloat x) value)); [discriminate | exact Hok]. }
  split; [exact Hentry|].
  assert (Htext : forall text t, t = text ++ " = " ++ py_str r ->
                  strip (last_item (split "=" t)) = py_str r)
    by (intros text t ->; apply result_text).
  destruct c as [a b|a b|a b|numbers|op value]; cbn [entry_text].
  - apply (Htext (py_str a ++ " + " ++ py_str b)). now rewrite !append_assoc.
  - apply (Htext (py_str a ++ " * " ++ py_str b)). now rewrite !append_assoc.
  - apply (Htext (py_str a ++ " / " ++ py_str b)). now rewrite !append_assoc.
  - apply (Htext ("avg(" ++ str_list numbers ++ ")")). now rewrite !append_assoc.
  - cbn [run_call] in Hok. rewrite chain_operation_run in Hok.
    destruct (last_result self) as [x|]; [|discriminate].
    apply (Htext (str_float x ++ operator_text op ++ py_str value)).
    now rewrite !append_assoc.
Qed.

Lemma successful_call_entry_witness :
  fst (run_call (Chain "mul" (PInt 2)) (mkCalculator 2 ["10 + 5 = 15"] (Some (of_Z 15))))
  = Ok (PFloat (of_Z 30)) /\
  history (snd (run_call (Chain "mul" (PInt 2))
                 (mkCalculator 2 ["10 + 5 = 15"] (Some (of_Z 15)))))
  = ["10 + 5 = 15"; "15.0 * 2 = 30.0"].
Proof.
  assert (Hok : fst (run_call (Chain "mul" (PInt 2))
                       (mkCalculator 2 ["10 + 5 = 15"] (Some (of_Z 15))))
                = Ok (PFloat (of_Z 30))) by (vm_compute; reflexivity).
  split; [exact Hok|].
  rewrite (proj1 (successful_call_entry _ _ _ Hok)). vm_compute. reflexivity.
Defined.

(** X6: after a call that returned [r], a chained [add], [mul] or [div] is
    the call of the method on [float(str(r))] and the value, and no chained
    call fails for want of a previous result. *)
Theorem chain_continues_from_result
    (c : call) (self : Calculator) (r : num) (value : num)
    (Hok : fst (run_call c self) = Ok r) :
  let self' := snd (run_call c self) in
  chain_operation "add" value self' = add (PFloat (reread r)) value self' /\
  chain_operation "mul" value self' = multiply (PFloat (reread r)) value self' /\
  chain_operation "div" value self' = divide (PFloat (reread r)) value self' /\
  forall op, fst (chain_operation op value self') <> Err NoPreviousResult.
Proof.
  cbv zeta. pose proof (run_call_effect c self) as H. rewrite Hok in H.
  destruct (effect_ok _ _ _ H) as [entry ->].
  repeat split. intros op Hop.
  rewrite chain_operation_run in Hop. cbn [logged last_result] in Hop.
  destruct (chain_dispatch op) as [Hd|[Hd|[Hd|Hd]]];
    destruct Hd as (_ & Hlookup & _); rewrite Hlookup in Hop.
  - now destruct (direct_call_not_validation (Add (PFloat (reread r)) value)
                    _ _ op ltac:(discriminate) Hop).
  - now destruct (direct_call_not_validation (Multiply (PFloat (reread r)) value)
                    _ _ op ltac:(discriminate) Hop).
  - now destruct (direct_call_not_validation (Divide (PFloat (reread r)) value)
                    _ _ op ltac:(discriminate) Hop).
  - discriminate.
Qed.

Lemma chain_continues_from_result_witness :
  fst (run_call (Add (PInt 10) (PInt 5)) (__init__ 2)) = Ok (PInt 15) /\
  fst (chain_operation "mul" (PInt 2) (snd (run_call (Add (PInt 10) (PInt 5)) (__init__ 2))))
  = Ok (PFloat (of_Z 30)).
Proof.
  split; [reflexivity|].
  rewrite (proj1 (proj2 (chain_continues_from_result
                           (Add (PInt 10) (PInt 5)) (__init__ 2) (PInt 15) (PInt 2) eq_refl))).
  vm_compute. reflexivity.
Defined.



Section Commutative.

Lemma fadd_comm (x y : spec_float) : fadd x y = fadd y x.
Proof.
  unfold fadd, SFadd.
  destruct x as [sx|sx| |sx mx ex], y as [sy|sy| |sy my ey]; try reflexivity;
    try (destruct sx, sy; reflexivity).
  rewrite (Z.min_comm ey ex). f_equal. apply Z.add_comm.
Qed.

Lemma fmul_comm (x y : spec_float) : fmul x y = fmul y x.
Proof.
  unfold fmul, SFmul.
  destruct x as [sx|sx| |sx mx ex], y as [sy|sy| |sy my ey]; try reflexivity;
    try (destruct sx, sy; reflexivity).
  now rewrite (xorb_comm sy sx), (Pos.mul_comm my mx), (Z.add_comm ey ex).
Qed.

Lemma float_op_comm (op : spec_float -> spec_float -> spec_float) (a b : num) :
  (forall x y, op x y = op y x) ->
  rbind (to_float a) (fun x => rbind (to_float b) (fun y => Ok (PFloat (op x y))))
  = rbind (to_float b) (fun y => rbind (to_float a) (fun x => Ok (PFloat (op y x)))).
Proof.
  intros Hop.
  destruct (to_float a) as [x|ea] eqn:Ha, (to_float b) as [y|eb] eqn:Hb; cbn [rbind].
  - now rewrite Hop.
  - reflexivity.
  - reflexivity.
  - now rewrite (to_float_error a ea Ha), (to_float_error b eb Hb).
Qed.

Lemma py_add_comm (a b : num) : py_add a b = py_add b a.
Proof.
  destruct a as [x|x], b as [y|y]; unfold py_add;
    try apply (float_op_comm fadd _ _ fadd_comm).
  now rewrite Z.add_comm.
Qed.

Lemma py_mul_comm (a b : num) : py_mul a b = py_mul b a.
Proof.
  destruct a as [x|x], b as [y|y]; unfold py_mul;
    try apply (float_op_comm fmul _ _ fmul_comm).
  now rewrite Z.mul_comm.
Qed.

End Commutative.

(** X8: [add] and [multiply] are commutative, errors included, on ints,
    floats and mixed operands, for the functions as for the values the
    methods return (the history entries differ in the order of the
    operands). *)
Theorem add_multiply_commute (self : Calculator) (a b : num) :
  calculator.add a b = calculator.add b a /\
  calculator.multiply a b = calculator.multiply b a /\
  fst (add a b self) = fst (add b a self) /\
  fst (multiply a b self) = fst (multiply b a self).
Proof.
  repeat split.
  - apply py_add_comm.
  - apply py_mul_comm.
  - change (fst (run_call (Add a b) self) = fst (run_call (Add b a) self)).
    rewrite !run_call_result. cbn [raw_result]. unfold calculator.add. now rewrite py_add_comm.
  - change (fst (run_call (Multiply a b) self) = fst (run_call (Multiply b a) self)).
    rewrite !run_call_result. cbn [raw_result]. unfold calculator.multiply. now rewrite py_mul_comm.
Qed.

(** X9: what a call returns depends on the precision and the last result
    only, never on the history. *)
Theorem result_independent_of_history
    (c : call) (self other : Calculator)
    (Hp : precision self = precision other)
    (Hl : last_result self = last_result other) :
  fst (run_call c self) = fst (run_call c other).
Proof.
  rewrite !run_call_result, Hp.
  destruct c as [a b|a b|a b|numbers|op value]; cbn [raw_result]; try reflexivity.
  now rewrite Hl.
Qed.

Lemma result_independent_of_history_witness :
  fst (run_call (Chain "add" (PInt 1)) (mkCalculator 2 [] (Some (of_Z 5))))
  = fst (run_call (Chain "add" (PInt 1))
           (mkCalculator 2 ["2 + 3 = 5"; "1 / 0 = ERROR"] (Some (of_Z 5)))).
Proof.
  apply (result_independent_of_history (Chain "add" (PInt 1))
           (mkCalculator 2 [] (Some (of_Z 5)))
           (mkCalculator 2 ["2 + 3 = 5"; "1 / 0 = ERROR"] (Some (of_Z 5)))
           eq_refl eq_refl).
Defined.

Section Shapes.

Lemma outcome_shape (self : Calculator) (text : string) (raw : result num) :
  exists entries,
    history (snd (outcome self text raw)) = List.app (history self) entries /\
    Forall entry_shape entries.
Proof.
  unfold outcome. destruct (rbind raw _) as [r|e]; cbn [snd logged history].
  - exists [text ++ " = " ++ py_str r]. split; [reflexivity|].
    constructor; [|constructor]. right. eauto.
  - exists []. now rewrite app_nil_r.
Qed.

Lemma direct_call_shape (c : call) (self : Calculator) :
  (forall op value, c <> Chain op value) ->
  exists entries,
    history (snd (run_call c self)) = List.app (history self) entries /\
    Forall entry_shape entries.
Proof.
  intros Hc. destruct c as [a b|a b|a b|numbers|op value]; cbn [run_call].
  - rewrite add_outcome. apply outcome_shape.
  - rewrite multiply_outcome. apply outcome_shape.
  - destruct (is_zero b) eqn:Hb.
    + rewrite divide_zero by exact Hb. cbn [snd logged_error history].
      exists [py_str a ++ " / " ++ py_str b ++ " = ERROR"]. split; [reflexivity|].
      constructor; [|constructor]. left.
      exists (py_str a ++ " / " ++ py_str b). now rewrite !append_assoc.
    + rewrite divide_outcome by exact Hb. apply outcome_shape.
  - destruct numbers as [|x rest].
    + exists []. cbn. now rewrite app_nil_r.
    + rewrite average_outcome. apply outcome_shape.
  - now destruct (Hc op value).
Qed.

Lemma run_call_shape (c : call) (self : Calculator) :
  exists entries,
    history (snd (run_call c self)) = List.app (history self) entries /\
    Forall entry_shape entries.
Proof.
  destruct c as [a b|a b|a b|numbers|op value];
    try (apply direct_call_shape; discriminate).
  cbn [run_call]. rewrite chain_operation_run.
  assert (Hnone : exists entries,
             history self = List.app (history self) entries /\ Forall entry_shape entries)
    by (exists []; now rewrite app_nil_r).
  destruct (last_result self) as [x|]; [|exact Hnone].
  destruct (chain_dispatch op) as [H|[H|[H|H]]];
    destruct H as (_ & -> & _); [| | |exact Hnone].
  - apply (direct_call_shape (Add (PFloat x) value)). discriminate.
  - apply (direct_call_shape (Multiply (PFloat x) value)). discriminate.
  - apply (direct_call_shape (Divide (PFloat x) value)). discriminate.
Qed.

Lemma run_action_precision (a : action) (self : Calculator) :
  precision (run_action self a) = precision self.
Proof.
  destruct a as [c| |]; cbn [run_action]; [|reflexivity|reflexivity].
  now destruct (effect_summary _ _ _ (run_call_effect c self)).
Qed.

Lemma run_actions_precision (acts : list action) (self : Calculator) :
  precision (run_actions acts self) = precision self.
Proof.
  revert self. induction acts as [|a rest IH]; intros self; [reflexivity|].
  unfold run_actions in *. cbn [fold_left]. now rewrite IH, run_action_precision.
Qed.

End Shapes.

(** X10: the operations keep the shape of the history: when every entry
    ends in [" = ERROR"] or in [" = "] and the text of a number, so does
    every entry after any sequence of calls. *)
Theorem history_entries_shape
    (cs : list call) (self : Calculator)
    (Hself : Forall entry_shape (history self)) :
  Forall entry_shape (history (snd (run_calls cs self))).
Proof.
  revert self Hself. induction cs as [|c rest IH]; intros self Hself; [exact Hself|].
  rewrite run_calls_cons. cbn [snd]. apply IH.
  destruct (run_call_shape c self) as (entries & -> & Hentries).
  apply Forall_app. now split.
Qed.

Lemma history_entries_shape_witness :
  Forall entry_shape
    (history (snd (run_calls [Add (PInt 2) (PInt 3); Divide (PInt 1) (PInt 0)]
                     (__init__ 2)))).
Proof.
  apply (history_entries_shape [Add (PInt 2) (PInt 3); Divide (PInt 1) (PInt 0)]
           (__init__ 2)).
  constructor.
Defined.

(** X11: no use of the public interface changes the precision, and
    [clear_history] forgets the past: whatever was done before it, the
    calculator goes on as a fresh one of the same precision. *)
Theorem clear_history_starts_afresh
    (before after : list action) (self : Calculator) :
  precision (run_actions before self) = precision self /\
  run_actions (before ++ ClearHistory :: after)%list self
  = run_actions after (__init__ (precision self)).
Proof.
  split; [apply run_actions_precision|].
  unfold run_actions. rewrite fold_left_app. cbn [fold_left run_action].
  fold (run_actions before self).
  unfold clear_history. cbn [snd]. now rewrite run_actions_precision.
Qed.

(** ** [main.py] *)

Section Repr.

Lemma numchar_plain (c : ascii) : numchar c = true -> plain_char c = true.
Proof. each_ascii c. Qed.



Lemma py_str_plain (x : num) : all_chars plain_char (py_str x) = true.
Proof.
  destruct (py_str_text x) as [H _]. revert H.
  apply all_chars_weaken, numchar_plain.
Qed.

Lemma operator_text_plain (op : string) : all_chars plain_char (operator_text op) = true.
Proof.
  unfold operator_text.
  destruct (String.eqb op "add"); [reflexivity|].
  destruct (String.eqb op "mul"); reflexivity.
Qed.

Lemma binary_entry_plain (a b r : num) (op : string) :
  all_chars plain_char (py_str a ++ operator_text op ++ py_str b ++ " = " ++ py_str r) = true.
Proof.
  now rewrite !all_chars_app, !py_str_plain, operator_text_plain.
Qed.

End Repr.

Section Main.





End Main.


Section MainOop.



End MainOop.


(** ** The history as a shared list *)

Section Store.

Lemma length_list_append (st : shared.store) (a : shared.address) (entry : string) :
  List.length (shared.list_append st a entry) = List.length st.
Proof.
  revert a. induction st as [|l rest IH]; intros [|a]; cbn; try reflexivity.
  now rewrite IH.
Qed.

Lemma deref_list_append (st : shared.store) (a : shared.address) (entry : string) :
  (a < List.length st)%nat ->
  shared.deref (shared.list_append st a entry) a
  = (shared.deref st a ++ [entry])%list.
Proof.
  unfold shared.deref. revert a.
  induction st as [|l rest IH]; intros [|a]; cbn; intros H; try lia; try reflexivity.
  apply IH. lia.
Qed.

Lemma deref_list_append_other (st : shared.store) (a b : shared.address) (entry : string) :
  b <> a -> shared.deref (shared.list_append st a entry) b = shared.deref st b.
Proof.
  unfold shared.deref. revert a b.
  induction st as [|l rest IH]; intros [|a] [|b]; cbn; intros H;
    try reflexivity; try congruence.
  apply IH. congruence.
Qed.

Lemma deref_new_list (st : shared.store) (a : shared.address) :
  shared.deref (fst (shared.new_list st)) a = shared.deref st a.
Proof.
  unfold shared.deref, shared.new_list. cbn [fst].
  destruct (Nat.lt_ge_cases a (List.length st)) as [H|H].
  - now rewrite app_nth1.
  - rewrite (nth_overflow st) by exact H.
    rewrite app_nth2 by exact H.
    destruct (a - List.length st)%nat as [|[|n]]; reflexivity.
Qed.

End Store.

Section Simulation.

Lemma simulates_ret {A : Type} (a : A) : simulates (shared.ret a) (calculator_class.ret a).
Proof. intros w Hw. now repeat split. Qed.

Lemma simulates_raise {A : Type} (e : exn) :
  simulates (@shared.raise A e) (calculator_class.raise e).
Proof. intros w Hw. now repeat split. Qed.

Lemma simulates_lift {A : Type} (r : result A) :
  simulates (shared.lift r) (calculator_class.lift r).
Proof. intros w Hw. now repeat split. Qed.

Lemma simulates_get_precision :
  simulates shared.get_precision calculator_class.get_precision.
Proof. intros w Hw. now repeat split. Qed.

Lemma simulates_get_last_result :
  simulates shared.get_last_result calculator_class.get_last_result.
Proof. intros w Hw. now repeat split. Qed.

Lemma simulates_set_last_result (r : option spec_float) :
  simulates (shared.set_last_result r) (calculator_class.set_last_result r).
Proof. intros w Hw. now repeat split. Qed.

Lemma simulates_history_append (operation : string) :
  simulates (shared.history_append operation)
            (calculator_class.history_append operation).
Proof.
  intros [st self] Hw. unfold allocated in Hw. cbn [fst snd] in Hw.
  unfold shared.history_append, calculator_class.history_append, view.
  cbn [fst snd calculator_class.precision calculator_class.history
       calculator_class.last_result].
  repeat split.
  - now rewrite deref_list_append.
  - apply length_list_append.
  - intros a Ha. now apply deref_list_append_other.
Qed.

Lemma simulates_bind {A B : Type}
      (c' : shared.M A) (c : calculator_class.M A)
      (k' : A -> shared.M B) (k : A -> calculator_class.M B) :
  simulates c' c -> (forall a, simulates (k' a) (k a)) ->
  simulates (shared.bind c' k') (calculator_class.bind c k).
Proof.
  intros Hc Hk w Hw. destruct (Hc w Hw) as (Hr & Hv & Hh & Hlen & Hframe).
  unfold shared.bind, calculator_class.bind.
  destruct (c' w) as [r' w1]. destruct (c (view w)) as [r self1].
  cbn [fst snd] in *. subst r' self1.
  destruct r as [a|e]; [|now repeat split].
  assert (Hw1 : allocated w1) by (unfold allocated in *; lia).
  destruct (Hk a w1 Hw1) as (Hr2 & Hv2 & Hh2 & Hlen2 & Hframe2).
  repeat split; try congruence.
  intros x Hx. rewrite Hframe2 by congruence. now apply Hframe.
Qed.

Lemma simulates_log_operation (operation : string) (error : bool) :
  simulates (shared._log_operation operation error)
            (calculator_class._log_operation operation error).
Proof.
  apply simulates_bind; [apply simulates_history_append|]. intros _.
  destruct error; cbn [negb]; [apply simulates_ret|].
  apply simulates_bind; [apply simulates_lift|]. intros r.
  apply simulates_set_last_result.
Qed.

Lemma simulates_compute_log (raw : Z -> result num) (entry : num -> string) :
  simulates
    (shared.bind shared.get_precision (fun p =>
     shared.bind (shared.lift (raw p)) (fun result =>
     shared.bind (shared._log_operation (entry result) false) (fun _ =>
     shared.ret result))))
    (calculator_class.bind calculator_class.get_precision (fun p =>
     calculator_class.bind (calculator_class.lift (raw p)) (fun result =>
     calculator_class.bind (calculator_class._log_operation (entry result) false) (fun _ =>
     calculator_class.ret result)))).
Proof.
  apply simulates_bind; [apply simulates_get_precision|]. intros p.
  apply simulates_bind; [apply simulates_lift|]. intros result.
  apply simulates_bind; [apply simulates_log_operation|]. intros _.
  apply simulates_ret.
Qed.

Lemma simulates_add (a b : num) : simulates (shared.add a b) (calculator_class.add a b).
Proof.
  apply (simulates_compute_log
           (fun p => rbind (py_add a b) (fun v => py_round v p))
           (fun r => py_str a ++ " + " ++ py_str b ++ " = " ++ py_str r)).
Qed.

Lemma simulates_multiply (a b : num) :
  simulates (shared.multiply a b) (calculator_class.multiply a b).
Proof.
  apply (simulates_compute_log
           (fun p => rbind (py_mul a b) (fun v => py_round v p))
           (fun r => py_str a ++ " * " ++ py_str b ++ " = " ++ py_str r)).
Qed.

Lemma simulates_divide (a b : num) :
  simulates (shared.divide a b) (calculator_class.divide a b).
Proof.
  unfold shared.divide, calculator_class.divide. destruct (is_zero b).
  - apply simulates_bind; [apply simulates_log_operation|]. intros _.
    apply simulates_raise.
  - apply (simulates_compute_log
             (fun p => rbind (py_truediv a b) (fun v => py_round v p))
             (fun r => py_str a ++ " / " ++ py_str b ++ " = " ++ py_str r)).
Qed.

Lemma simulates_calculate_average (numbers : list num) :
  simulates (shared.calculate_average numbers)
            (calculator_class.calculate_average numbers).
Proof.
  destruct numbers as [|x rest]; [apply simulates_raise|].
  apply (simulates_compute_log
           (fun p => rbind (rbind (py_sum (x :: rest))
                              (fun s => py_truediv s (py_len (x :: rest))))
                           (fun v => py_round v p))
           (fun r => "avg(" ++ str_list (x :: rest) ++ ") = " ++ py_str r)).
Qed.

Lemma simulates_chain_operation (op : string) (value : num) :
  simulates (shared.chain_operation op value)
            (calculator_class.chain_operation op value).
Proof.
  apply simulates_bind; [apply simulates_get_last_result|]. intros [x|];
    [|apply simulates_raise].
  unfold shared.operations, calculator_class.operations, calculator_class.lookup.
  destruct (String.eqb op "add"); [apply simulates_add|].
  destruct (String.eqb op "mul"); [apply simulates_multiply|].
  destruct (String.eqb op "div"); [apply simulates_divide|].
  apply simulates_raise.
Qed.

Lemma simulates_run_call (c : calculator_class.call) :
  simulates (shared.run_call c) (calculator_class.run_call c).
Proof.
  destruct c; cbn [shared.run_call calculator_class.run_call].
  - apply simulates_add.
  - apply simulates_multiply.
  - apply simulates_divide.
  - apply simulates_calculate_average.
  - apply simulates_chain_operation.
Qed.

End Simulation.

Section SharedRuns.

Lemma shared_run_calls (cs : list calculator_class.call)
      (w : shared.store * shared.Calculator) :
  allocated w ->
  view (shared.run_calls cs w) = snd (calculator_class.run_calls cs (view w)) /\
  shared.history (snd (shared.run_calls cs w)) = shared.history (snd w) /\
  List.length (fst (shared.run_calls cs w)) = List.length (fst w) /\
  forall a, a <> shared.history (snd w) ->
            shared.deref (fst (shared.run_calls cs w)) a = shared.deref (fst w) a.
Proof.
  revert w. induction cs as [|c rest IH]; intros w Hw; [now repeat split|].
  unfold shared.run_calls in *. cbn [fold_left].
  rewrite run_calls_cons. cbn [snd].
  destruct (simulates_run_call c w Hw) as (_ & Hv & Hh & Hlen & Hframe).
  assert (Hw1 : allocated (snd (shared.run_call c w)))
    by (unfold allocated in *; lia).
  destruct (IH _ Hw1) as (Hv2 & Hh2 & Hlen2 & Hframe2).
  rewrite Hv2, Hv. repeat split; try congruence.
  intros a Ha. rewrite Hframe2 by congruence. now apply Hframe.
Qed.

End SharedRuns.

(** X14: [get_history] returns the calculator's own list, not a copy: after
    any later calls, the list returned earlier is the calculator's history,
    the entries logged since included. *)
Theorem returned_history_is_live
    (cs : list calculator_class.call) (w : shared.store * shared.Calculator)
    (Hw : allocated w) :
  let h := shared.history (snd w) in
  shared.get_history w = (Ok h, w) /\
  shared.deref (fst (shared.run_calls cs w)) h
  = calculator_class.history (snd (calculator_class.run_calls cs (view w))) /\
  exists entries,
    shared.deref (fst (shared.run_calls cs w)) h
    = (shared.deref (fst w) h ++ entries)%list /\
    List.length entries
    = List.length (filter logs (fst (calculator_class.run_calls cs (view w)))).
Proof.
  cbv zeta. destruct (shared_run_calls cs w Hw) as (Hv & Hh & _ & _).
  assert (Hd : shared.deref (fst (shared.run_calls cs w)) (shared.history (snd w))
               = calculator_class.history
                   (snd (calculator_class.run_calls cs (view w)))).
  { rewrite <- Hv. unfold view. cbn [calculator_class.history]. now rewrite Hh. }
  split; [reflexivity|]. split; [exact Hd|].
  rewrite Hd. destruct (run_calls_summary cs (view w)) as (_ & _ & entries & He & Hn).
  exists entries. now split.
Qed.

(** X15: [clear_history] binds the history to a new, empty list and leaves
    the old list alone: a list returned earlier by [get_history] keeps its
    entries, and no later call changes it. *)
Theorem cleared_history_is_a_new_list
    (cs : list calculator_class.call) (w : shared.store * shared.Calculator)
    (Hw : allocated w) :
  let h := shared.history (snd w) in
  let w' := snd (shared.clear_history w) in
  shared.history (snd w') <> h /\
  view w' = calculator_class.__init__ (shared.precision (snd w)) /\
  shared.deref (fst w') h = shared.deref (fst w) h /\
  shared.deref (fst (shared.run_calls cs w')) h = shared.deref (fst w) h.
Proof.
  cbv zeta. destruct w as [st self]. unfold allocated in Hw. cbn [fst snd] in Hw.
  unfold shared.clear_history. cbn [fst snd shared.new_list].
  assert (Hnew : shared.deref (st ++ [[]])%list (List.length st) = []).
  { unfold shared.deref. rewrite app_nth2 by lia. now rewrite Nat.sub_diag. }
  assert (Hold : shared.deref (st ++ [[]])%list (shared.history self)
                 = shared.deref st (shared.history self))
    by apply (deref_new_list st).
  assert (Hw' : allocated ((st ++ [[]])%list,
                           shared.mkCalculator (shared.precision self)
                             (List.length st) None)).
  { unfold allocated. cbn [fst snd shared.history]. rewrite length_app. simpl. lia. }
  split; [cbn [shared.history]; lia|]. split.
  - unfold view. cbn [fst snd shared.precision shared.history shared.last_result].
    now rewrite Hnew.
  - split; [exact Hold|].
    destruct (shared_run_calls cs _ Hw') as (_ & _ & _ & Hframe).
    cbn [fst snd shared.history] in Hframe. rewrite Hframe by lia. exact Hold.
Qed.

(** X16: two calculators never share a history: each construction makes a
    list of its own, and calls on one instance leave the other's history
    empty; an instance among others behaves as one alone. *)
Theorem instances_have_their_own_history
    (p1 p2 : Z) (st : shared.store) (cs : list calculator_class.call) :
  let '(st1, c1) := shared.__init__ p1 st in
  let '(st2, c2) := shared.__init__ p2 st1 in
  shared.history c1 <> shared.history c2 /\
  shared.deref (fst (shared.run_calls cs (st2, c1))) (shared.history c2) = [] /\
  shared.deref (fst (shared.run_calls cs (st2, c2))) (shared.history c1) = [] /\
  view (shared.run_calls cs (st2, c1))
  = snd (calculator_class.run_calls cs (calculator_class.__init__ p1)).
Proof.
  unfold shared.__init__, shared.new_list. cbn [shared.history].
  assert (H1 : shared.deref ((st ++ [[]]) ++ [[]])%list (List.length st) = []).
  { unfold shared.deref. rewrite app_nth1 by (rewrite length_app; simpl; lia).
    rewrite app_nth2 by lia. now rewrite Nat.sub_diag. }
  assert (H2 : shared.deref ((st ++ [[]]) ++ [[]])%list (List.length (st ++ [[]])%list) = []).
  { unfold shared.deref. rewrite app_nth2 by lia. now rewrite Nat.sub_diag. }
  assert (Hlen : List.length (st ++ [[]])%list = S (List.length st))
    by (rewrite length_app; simpl; lia).
  assert (Hw1 : allocated (((st ++ [[]]) ++ [[]])%list,
                           shared.mkCalculator p1 (List.length st) None)).
  { unfold allocated. cbn [fst snd shared.history]. rewrite !length_app. simpl. lia. }
  assert (Hw2 : allocated (((st ++ [[]]) ++ [[]])%list,
                           shared.mkCalculator p2 (List.length (st ++ [[]])%list) None)).
  { unfold allocated. cbn [fst snd shared.history]. rewrite !length_app. simpl. lia. }
  destruct (shared_run_calls cs _ Hw1) as (Hv1 & _ & _ & Hf1).
  destruct (shared_run_calls cs _ Hw2) as (_ & _ & _ & Hf2).
  cbn [fst snd shared.history] in Hf1, Hf2.
  split; [lia|]. split; [rewrite Hf1 by lia; exact H2|].
  split; [rewrite Hf2 by lia; exact H1|].
  refine (eq_trans Hv1 _). f_equal. f_equal.
  unfold view. cbn [fst snd shared.precision shared.history shared.last_result].
  now rewrite H1.
Qed.

Lemma returned_history_is_live_witness :
  let w := shared.__init__ 2 [] in
  allocated w /\
  shared.deref (fst (shared.run_calls [Add (PInt 2) (PInt 3)] w))
    (shared.history (snd w))
  = ["2 + 3 = 5"].
Proof.
  assert (Hw : allocated (shared.__init__ 2 [])) by (vm_compute; lia).
  split; [exact Hw|].
  rewrite (proj1 (proj2 (returned_history_is_live [Add (PInt 2) (PInt 3)]
                           (shared.__init__ 2 []) Hw))).
  reflexivity.
Defined.

Lemma cleared_history_is_a_new_list_witness :
  let w := shared.run_calls [Add (PInt 2) (PInt 3)] (shared.__init__ 2 []) in
  allocated w /\
  shared.deref
    (fst (shared.run_calls [Add (PInt 1) (PInt 1)] (snd (shared.clear_history w))))
    (shared.history (snd w))
  = ["2 + 3 = 5"].
Proof.
  assert (Hw : allocated (shared.run_calls [Add (PInt 2) (PInt 3)]
                            (shared.__init__ 2 []))) by (vm_compute; lia).
  split; [exact Hw|].
  rewrite (proj2 (proj2 (proj2 (cleared_history_is_a_new_list
                                  [Add (PInt 1) (PInt 1)] _ Hw)))).
  reflexivity.
Defined.
